(** * Log forwarding function app (src/func-app/function_app.py)

    A shallow embedding of the Azure Function that forwards JSON events to
    the Log Analytics Data Collector API: the event classifier
    [determine_log_type], the signed request builder [post_to_law] and the
    three HTTP handlers.  Python strings are lists of code points; a JSON
    value is the value [json.loads] produces; effects (clock reads and the
    outbound POSTs) are threaded through a small state and exception monad. *)

From Stdlib Require Import ZArith String Ascii QArith Bool Lia List.
Import ListNotations.
Open Scope Z_scope.

(** ** Python strings *)

(** A Python [str]: a list of Unicode code points. *)
Definition pystr := list Z.

(** A Python string literal written with ASCII characters. *)
Fixpoint lit (s : string) : pystr :=
  match s with
  | EmptyString => []
  | String c s' => Z.of_nat (nat_of_ascii c) :: lit s'
  end.

Definition NL : pystr := [10].

Definition str_eqb (a b : pystr) : bool :=
  if list_eq_dec Z.eq_dec a b then true else false.

(** [s.startswith(p)] *)
Fixpoint startswith (s p : pystr) : bool :=
  match p, s with
  | [], _ => true
  | c :: p', d :: s' => (c =? d) && startswith s' p'
  | _ :: _, [] => false
  end.

(** [p in s] for two strings: substring test. *)
Fixpoint str_contains (s p : pystr) : bool :=
  startswith s p || match s with [] => false | _ :: s' => str_contains s' p end.

(** [s.lower()], on the ASCII capitals.  Every other code point is kept:
    besides the ASCII capitals only U+212A (Kelvin sign, lowered to "k")
    lowers to an ASCII letter, and "k" occurs in neither literal this
    program compares lowered strings with ("mulesoft", "salesforce"). *)
Definition lower_char (c : Z) : Z := if (65 <=? c) && (c <=? 90) then c + 32 else c.
Definition py_lower (s : pystr) : pystr := map lower_char s.

(** ["sep".join(l)] *)
Fixpoint join (sep : pystr) (l : list pystr) : pystr :=
  match l with
  | [] => []
  | [x] => x
  | x :: t => x ++ sep ++ join sep t
  end.

(** Decimal digits of a non-negative integer ([str(n)]). *)
Fixpoint digits_aux (fuel : nat) (n : Z) (acc : pystr) : pystr :=
  match fuel with
  | O => acc
  | S f =>
      let acc' := (48 + n mod 10) :: acc in
      if n <? 10 then acc' else digits_aux f (n / 10) acc'
  end.

Definition digits (n : Z) : pystr := digits_aux (Z.to_nat (Z.log2 n + 2)) n [].

(** [int.__repr__] *)
Definition int_repr (z : Z) : pystr := if z <? 0 then 45 :: digits (- z) else digits z.

(** ["%0<w>d" % z] for non-negative [z]. *)
Definition zpad (w : nat) (z : Z) : pystr :=
  let d := digits z in repeat 48 (w - length d) ++ d.

(** ** JSON values, as produced by [json.loads] *)

(** A Python float: a finite value or one of the non-finite values that
    [json.loads] accepts ("Infinity", "-Infinity", "NaN"). *)
Inductive pyfloat : Type :=
| FFin (q : Q)
| FInf
| FNegInf
| FNaN.

#[local] Set Warnings "-register-all".

Inductive json : Type :=
| JNull
| JBool (b : bool)
| JInt (z : Z)
| JFloat (f : pyfloat)
| JStr (s : pystr)
| JArr (l : list json)
| JObj (fields : list (pystr * json)).

(** A dict is kept as its list of items, in insertion order. *)
Definition record := list (pystr * json).

(** [d.get(k)] *)
Fixpoint dict_get (k : pystr) (d : record) : option json :=
  match d with
  | [] => None
  | (k', v) :: t => if str_eqb k k' then Some v else dict_get k t
  end.

Definition dict_has (k : pystr) (d : record) : bool :=
  match dict_get k d with Some _ => true | None => false end.

(** [d[k] = v]: a present key keeps its position, a new key goes last. *)
Fixpoint dict_set (k : pystr) (v : json) (d : record) : record :=
  match d with
  | [] => [(k, v)]
  | (k', v') :: t => if str_eqb k k' then (k', v) :: t else (k', v') :: dict_set k v t
  end.

(** [bool(v)] *)
Definition py_truthy (v : json) : bool :=
  match v with
  | JNull => false
  | JBool b => b
  | JInt z => negb (z =? 0)
  | JFloat (FFin q) => negb (Qeq_bool q 0)
  | JFloat _ => true
  | JStr s => match s with [] => false | _ => true end
  | JArr l => match l with [] => false | _ => true end
  | JObj d => match d with [] => false | _ => true end
  end.

(** Equality of a JSON value with a string ([v == "..."]). *)
Definition json_is_str (v : json) (s : pystr) : bool :=
  match v with JStr s' => str_eqb s' s | _ => false end.

(** ** [json.dumps] with its default arguments

    [ensure_ascii=True], [allow_nan=True], separators [", "] and [": "];
    Python's C accelerator [c_encode_basestring_ascii] for strings. *)

Section Dumps.

(** [float.__repr__] of a finite float, a library routine. *)
Variable float_repr : Q -> pystr.

Definition hexdigit (n : Z) : Z := if n <? 10 then 48 + n else 87 + n.

(** ["\u%04x"] *)
Definition u_escape (c : Z) : pystr :=
  [92; 117; hexdigit (Z.land (Z.shiftr c 12) 15); hexdigit (Z.land (Z.shiftr c 8) 15);
   hexdigit (Z.land (Z.shiftr c 4) 15); hexdigit (Z.land c 15)].

(** [ascii_escape_unichar]: a printable ASCII character other than the
    backslash and the double quote is kept; the rest is escaped. *)
Definition ascii_escape_unichar (c : Z) : pystr :=
  if (32 <=? c) && (c <=? 126) && negb (c =? 92) && negb (c =? 34) then [c]
  else if c =? 92 then [92; 92]
  else if c =? 34 then [92; 34]
  else if c =? 8 then [92; 98]
  else if c =? 12 then [92; 102]
  else if c =? 10 then [92; 110]
  else if c =? 13 then [92; 114]
  else if c =? 9 then [92; 116]
  else if 65536 <=? c then
    (* UTF-16 surrogate pair *)
    u_escape (55296 - Z.shiftr 65536 10 + Z.shiftr c 10) ++ u_escape (56320 + Z.land c 1023)
  else u_escape c.

Definition encode_basestring_ascii (s : pystr) : pystr :=
  [34] ++ flat_map ascii_escape_unichar s ++ [34].

Definition float_dumps (f : pyfloat) : pystr :=
  match f with
  | FFin q => float_repr q
  | FInf => lit "Infinity"
  | FNegInf => lit "-Infinity"
  | FNaN => lit "NaN"
  end.

Fixpoint json_dumps (v : json) : pystr :=
  match v with
  | JNull => lit "null"
  | JBool true => lit "true"
  | JBool false => lit "false"
  | JInt z => int_repr z
  | JFloat f => float_dumps f
  | JStr s => encode_basestring_ascii s
  | JArr l =>
      [91] ++ join (lit ", ")
        ((fix items (l : list json) : list pystr :=
            match l with [] => [] | x :: t => json_dumps x :: items t end) l)
      ++ [93]
  | JObj d =>
      [123] ++ join (lit ", ")
        ((fix items (d : list (pystr * json)) : list pystr :=
            match d with
            | [] => []
            | (k, x) :: t => (encode_basestring_ascii k ++ lit ": " ++ json_dumps x) :: items t
            end) d)
      ++ [125]
  end.

End Dumps.

(** ** [datetime] and its formatting *)

Record datetime : Type := mkdatetime {
  dt_year : Z; dt_month : Z; dt_day : Z;
  dt_hour : Z; dt_minute : Z; dt_second : Z; dt_microsecond : Z }.

Definition is_leap (y : Z) : bool := (y mod 4 =? 0) && (negb (y mod 100 =? 0) || (y mod 400 =? 0)).

Definition days_before_year (y : Z) : Z :=
  let y' := y - 1 in y' * 365 + y' / 4 - y' / 100 + y' / 400.

Definition days_before_month (y m : Z) : Z :=
  nth (Z.to_nat (m - 1)) [0; 31; 59; 90; 120; 151; 181; 212; 243; 273; 304; 334] 0
  + (if (2 <? m) && is_leap y then 1 else 0).

(** [_ymd2ord] and [date.weekday()] (Monday is 0). *)
Definition ymd2ord (y m d : Z) : Z := days_before_year y + days_before_month y m + d.
Definition weekday (t : datetime) : Z := (ymd2ord (dt_year t) (dt_month t) (dt_day t) + 6) mod 7.

Definition day_abbr : list pystr :=
  map lit ["Mon"; "Tue"; "Wed"; "Thu"; "Fri"; "Sat"; "Sun"]%string.
Definition month_abbr : list pystr :=
  map lit ["Jan"; "Feb"; "Mar"; "Apr"; "May"; "Jun";
           "Jul"; "Aug"; "Sep"; "Oct"; "Nov"; "Dec"]%string.

(** One [strftime] directive, in the C locale. *)
Definition strftime_directive (d : Z) (t : datetime) : pystr :=
  if d =? 97 then nth (Z.to_nat (weekday t)) day_abbr []            (* %a *)
  else if d =? 100 then zpad 2 (dt_day t)                           (* %d *)
  else if d =? 98 then nth (Z.to_nat (dt_month t - 1)) month_abbr [] (* %b *)
  else if d =? 89 then int_repr (dt_year t)                         (* %Y *)
  else if d =? 72 then zpad 2 (dt_hour t)                           (* %H *)
  else if d =? 77 then zpad 2 (dt_minute t)                         (* %M *)
  else if d =? 83 then zpad 2 (dt_second t)                         (* %S *)
  else [37; d].

Fixpoint strftime (fmt : pystr) (t : datetime) : pystr :=
  match fmt with
  | 37 :: d :: rest => strftime_directive d t ++ strftime rest t
  | c :: rest => c :: strftime rest t
  | [] => []
  end.

(** [datetime.isoformat()] *)
Definition isoformat (t : datetime) : pystr :=
  zpad 4 (dt_year t) ++ [45] ++ zpad 2 (dt_month t) ++ [45] ++ zpad 2 (dt_day t) ++ [84]
  ++ zpad 2 (dt_hour t) ++ [58] ++ zpad 2 (dt_minute t) ++ [58] ++ zpad 2 (dt_second t)
  ++ (if dt_microsecond t =? 0 then [] else [46] ++ zpad 6 (dt_microsecond t)).

(** The format string of line 23. *)
Definition ts_format : pystr := lit "%a, %d %b %Y %H:%M:%S GMT".

(** ** Effects: Python exceptions, the clock and outbound POSTs *)

Inductive exc : Type :=
| AttributeError
| TypeError
| BinasciiError        (* base64.b64decode on a malformed key *)
| UnicodeEncodeError.

Inductive outcome (A : Type) : Type :=
| Ret (a : A)
| Raise (e : exc).
Arguments Ret {A} a.
Arguments Raise {A} e.

(** One call of [requests.post(url, data=..., headers=..., timeout=...)]. *)
Record post_call : Type := mkcall {
  pc_url : pystr; pc_data : pystr; pc_headers : list (pystr * pystr); pc_timeout : Z }.

(** What [requests.post] gives back: a response, or a raised
    [requests.exceptions.RequestException] with its message. *)
Inductive transport_result : Type :=
| Response (status_code : Z) (text : pystr)
| RequestException (msg : pystr).

(** The observable world: clock readings taken so far and the POSTs issued. *)
Record world : Type := mkworld { w_ticks : nat; w_calls : list post_call }.

Definition M (A : Type) : Type := world -> outcome A * world.

Definition ret {A} (a : A) : M A := fun w => (Ret a, w).
Definition raise {A} (e : exc) : M A := fun w => (Raise e, w).
Definition lift {A} (o : outcome A) : M A := fun w => (o, w).
Definition bind {A B} (m : M A) (f : A -> M B) : M B :=
  fun w => match m w with
           | (Ret a, w') => f a w'
           | (Raise e, w') => (Raise e, w')
           end.

Notation "'let*' x ':=' m 'in' k" := (bind m (fun x => k))
  (at level 200, x name, m at level 100, k at level 200, right associativity).

(** [dict.get(k, default)] *)
Definition get_default (k : pystr) (d : record) (dflt : json) : json :=
  match dict_get k d with Some v => v | None => dflt end.

(** ** The event classifier (lines 53-75) *)

Inductive category : Type :=
| SalesforceEvent
| MuleSoftPerformance
| MuleSoftError
| MuleSoftUptime
| MuleSoftGeneral
| GeneralEvent.

(** The string [determine_log_type] returns for each category. *)
Definition category_name (c : category) : pystr :=
  match c with
  | SalesforceEvent => lit "SalesforceEvent"
  | MuleSoftPerformance => lit "MuleSoftPerformance"
  | MuleSoftError => lit "MuleSoftError"
  | MuleSoftUptime => lit "MuleSoftUptime"
  | MuleSoftGeneral => lit "MuleSoftGeneral"
  | GeneralEvent => lit "GeneralEvent"
  end.

(** [v.lower()]: only a [str] has the method. *)
Definition json_lower (v : json) : outcome pystr :=
  match v with JStr s => Ret (py_lower s) | _ => Raise AttributeError end.

(** [v.startswith(p)] *)
Definition json_startswith (v : json) (p : pystr) : outcome bool :=
  match v with JStr s => Ret (startswith s p) | _ => Raise AttributeError end.

(** [v >= 400]: [bool] compares as 0/1, [None], [str], [list] and [dict]
    do not compare with an [int]. *)
Definition json_ge_400 (v : json) : outcome bool :=
  match v with
  | JBool b => Ret (400 <=? (if b then 1 else 0))
  | JInt z => Ret (400 <=? z)
  | JFloat (FFin q) => Ret (Qle_bool (400 # 1) q)
  | JFloat FInf => Ret true
  | JFloat FNegInf => Ret false
  | JFloat FNaN => Ret false
  | _ => Raise TypeError
  end.

Definition determine_log_type (event_data : json) : outcome category :=
  match event_data with
  | JObj d =>
      let event_type := get_default (lit "eventType") d (JStr []) in
      match json_lower (get_default (lit "sourceSystem") d (JStr [])) with
      | Raise e => Raise e
      | Ret source_system =>
          let is_mule :=
            if str_eqb source_system (lit "mulesoft") then Ret true
            else json_startswith event_type (lit "MuleSoft") in
          match is_mule with
          | Raise e => Raise e
          | Ret true =>
              if dict_has (lit "latency") d || dict_has (lit "responseTime") d
              then Ret MuleSoftPerformance
              else if dict_has (lit "error") d then Ret MuleSoftError
              else match json_ge_400 (get_default (lit "statusCode") d (JInt 0)) with
                   | Raise e => Raise e
                   | Ret true => Ret MuleSoftError
                   | Ret false =>
                       if dict_has (lit "uptime") d || dict_has (lit "availability") d
                       then Ret MuleSoftUptime
                       else Ret MuleSoftGeneral
                   end
          | Ret false =>
              if str_contains source_system (lit "salesforce")
                 || existsb (json_is_str event_type)
                      [lit "Login"; lit "API_Usage"; lit "Data_Modification"]
              then Ret SalesforceEvent
              else Ret GeneralEvent
          end
      end
  | _ => Raise AttributeError   (* [.get] on a value that is not a dict *)
  end.

(** ** UTF-8 encoding ([str.encode("utf-8")], which refuses lone surrogates) *)

Definition utf8_char (c : Z) : option (list Z) :=
  if c <? 0 then None
  else if c <? 128 then Some [c]
  else if c <? 2048 then Some [192 + c / 64; 128 + c mod 64]
  else if (55296 <=? c) && (c <=? 57343) then None
  else if c <? 65536 then Some [224 + c / 4096; 128 + (c / 64) mod 64; 128 + c mod 64]
  else if c <? 1114112 then
    Some [240 + c / 262144; 128 + (c / 4096) mod 64; 128 + (c / 64) mod 64; 128 + c mod 64]
  else None.

Fixpoint utf8_encode (s : pystr) : option (list Z) :=
  match s with
  | [] => Some []
  | c :: t =>
      match utf8_char c, utf8_encode t with
      | Some b, Some bs => Some (b ++ bs)
      | _, _ => None
      end
  end.

(** The fixed Log Analytics collection host of line 43. *)
Definition collection_host : pystr := lit "ods.opinsights.azure.com".

(** The string-to-sign of lines 25-31. *)
Definition string_to_hash (body_json ts : pystr) : pystr :=
  lit "POST" ++ NL ++ int_repr (Z.of_nat (length body_json)) ++ NL
  ++ lit "application/json" ++ NL ++ lit "x-ms-date:" ++ ts ++ NL ++ lit "/api/logs".

(** [not s] for a configuration value read with [os.environ.get]. *)
Definition py_not_config (o : option pystr) : bool :=
  match o with None => true | Some [] => true | Some _ => false end.

Record http_response : Type := mkresp { resp_body : pystr; resp_status : Z }.

(** An exception escaping a handler is answered by the Functions host with
    status 500. *)
Definition host_status (o : outcome http_response) : Z :=
  match o with Ret r => resp_status r | Raise _ => 500 end.

(** ** The event generators of the simulators (src/api_simulator.py,
    src/scripts/salesforce_simulator.py)

    Each generator builds one event dict.  Every [random.choice],
    [random.choices(...)[0]], [random.randint], [round(random.uniform(...))],
    [uuid.uuid4()] and [datetime.utcnow()] it calls is a parameter: the value
    that call returned.  The dict literals keep their key order. *)

(** An entry of [self.mulesoft_apis]. *)
Record mule_api : Type := mkapi { api_name : pystr; api_endpoint : pystr; api_version : pystr }.

(** [f"{a}.{b}.{c}.{d}"] with four [random.randint(1,255)] *)
Definition ip_string (a b c d : Z) : pystr :=
  int_repr a ++ lit "." ++ int_repr b ++ lit "." ++ int_repr c ++ lit "." ++ int_repr d.

(** [datetime.utcnow().isoformat() + "Z"] *)
Definition sim_timestamp (now : datetime) : pystr := isoformat now ++ lit "Z".

(** api_simulator.py, lines 51-74 *)
Definition generate_sf_login_event (now : datetime) (event_id user : pystr) (success : bool)
    (login_type : pystr) (a b c d : Z) (country browser platform session reason : pystr)
    : record :=
  [(lit "eventType", JStr (lit "Login"));
   (lit "sourceSystem", JStr (lit "Salesforce"));
   (lit "timestamp", JStr (sim_timestamp now));
   (lit "eventId", JStr event_id);
   (lit "userId", JStr user);
   (lit "username", JStr user);
   (lit "loginType", JStr login_type);
   (lit "sourceIp", JStr (ip_string a b c d));
   (lit "country", JStr country);
   (lit "browser", JStr browser);
   (lit "platform", JStr platform);
   (lit "success", JBool success);
   (lit "sessionId", if success then JStr (firstn 8 session) else JNull);
   (lit "failureReason", if success then JNull else JStr reason)].

(** api_simulator.py, lines 76-99 *)
Definition generate_sf_api_event (now : datetime) (event_id user endpoint method : pystr)
    (status_code response_time records_get records_other : Z) (client : pystr) (a b c d : Z)
    : record :=
  [(lit "eventType", JStr (lit "API_Usage"));
   (lit "sourceSystem", JStr (lit "Salesforce"));
   (lit "timestamp", JStr (sim_timestamp now));
   (lit "eventId", JStr event_id);
   (lit "userId", JStr user);
   (lit "apiEndpoint", JStr endpoint);
   (lit "httpMethod", JStr method);
   (lit "statusCode", JInt status_code);
   (lit "responseTime", JInt response_time);
   (lit "recordsProcessed",
      JInt (if str_eqb method (lit "GET") then records_get else records_other));
   (lit "apiVersion", JStr (lit "v58.0"));
   (lit "clientApplication", JStr client);
   (lit "sourceIp", JStr (ip_string a b c d))].

(** [{"Status": "New", "Amount": 1000} if random.choice([True, False]) else {}] *)
Definition old_values (b : bool) : json :=
  if b then JObj [(lit "Status", JStr (lit "New")); (lit "Amount", JInt 1000)] else JObj [].
Definition new_values (b : bool) : json :=
  if b then JObj [(lit "Status", JStr (lit "Qualified")); (lit "Amount", JInt 1500)] else JObj [].

(** api_simulator.py, lines 101-120 *)
Definition generate_sf_data_event (now : datetime) (event_id user sobject action record_id : pystr)
    (fields : Z) (old_b new_b : bool) : record :=
  [(lit "eventType", JStr (lit "Data_Modification"));
   (lit "sourceSystem", JStr (lit "Salesforce"));
   (lit "timestamp", JStr (sim_timestamp now));
   (lit "eventId", JStr event_id);
   (lit "userId", JStr user);
   (lit "sobjectType", JStr sobject);
   (lit "action", JStr action);
   (lit "recordId", JStr record_id);
   (lit "fieldsModified", JInt fields);
   (lit "oldValues", old_values old_b);
   (lit "newValues", new_values new_b)].

(** api_simulator.py, lines 124-153 *)
Definition generate_mulesoft_performance_event (now : datetime) (event_id : pystr)
    (api : mule_api) (env app : pystr) (base_latency extra_prod extra_other throughput : Z)
    (memory cpu : Q) (status_code : Z) : record :=
  let latency := base_latency + (if str_eqb env (lit "PROD") then extra_prod else extra_other) in
  [(lit "eventType", JStr (lit "MuleSoft_Performance"));
   (lit "sourceSystem", JStr (lit "MuleSoft"));
   (lit "timestamp", JStr (sim_timestamp now));
   (lit "eventId", JStr event_id);
   (lit "apiName", JStr (api_name api));
   (lit "apiEndpoint", JStr (api_endpoint api));
   (lit "apiVersion", JStr (api_version api));
   (lit "environment", JStr env);
   (lit "applicationName", JStr app);
   (lit "responseTime", JInt latency);
   (lit "throughput", JInt throughput);
   (lit "memoryUsage", JFloat (FFin memory));
   (lit "cpuUsage", JFloat (FFin cpu));
   (lit "statusCode", JInt status_code)].

(** api_simulator.py, lines 155-186 *)
Definition generate_mulesoft_error_event (now : datetime) (event_id : pystr)
    (api : mule_api) (env app : pystr) (status_code : Z) (error_type : pystr)
    (response_time retries a b c d : Z) : record :=
  [(lit "eventType", JStr (lit "MuleSoft_Error"));
   (lit "sourceSystem", JStr (lit "MuleSoft"));
   (lit "timestamp", JStr (sim_timestamp now));
   (lit "eventId", JStr event_id);
   (lit "apiName", JStr (api_name api));
   (lit "apiEndpoint", JStr (api_endpoint api));
   (lit "apiVersion", JStr (api_version api));
   (lit "environment", JStr env);
   (lit "applicationName", JStr app);
   (lit "statusCode", JInt status_code);
   (lit "errorType", JStr error_type);
   (lit "errorMessage", JStr (lit "API error occurred: " ++ int_repr status_code));
   (lit "responseTime", JInt response_time);
   (lit "retryAttempts", JInt retries);
   (lit "sourceIp", JStr (ip_string a b c d))].

(** api_simulator.py, lines 188-218 *)
Definition generate_mulesoft_uptime_event (now : datetime) (event_id : pystr)
    (api : mule_api) (env app : pystr) (uptime_prod uptime_other : Q)
    (total successful failed avg_response : Z) : record :=
  let uptime := if str_eqb env (lit "PROD") then uptime_prod else uptime_other in
  [(lit "eventType", JStr (lit "MuleSoft_Uptime"));
   (lit "sourceSystem", JStr (lit "MuleSoft"));
   (lit "timestamp", JStr (sim_timestamp now));
   (lit "eventId", JStr event_id);
   (lit "apiName", JStr (api_name api));
   (lit "apiEndpoint", JStr (api_endpoint api));
   (lit "apiVersion", JStr (api_version api));
   (lit "environment", JStr env);
   (lit "applicationName", JStr app);
   (lit "availability", JFloat (FFin uptime));
   (lit "uptime", JFloat (FFin uptime));
   (lit "totalRequests", JInt total);
   (lit "successfulRequests", JInt successful);
   (lit "failedRequests", JInt failed);
   (lit "avgResponseTime", JInt avg_response);
   (lit "monitoringPeriod", JStr (lit "1h"))].

(** salesforce_simulator.py, lines 37-59: as [generate_sf_login_event]
    without [sourceSystem]. *)
Definition generate_login_event (now : datetime) (event_id user : pystr) (success : bool)
    (login_type : pystr) (a b c d : Z) (country browser platform session reason : pystr)
    : record :=
  [(lit "eventType", JStr (lit "Login"));
   (lit "timestamp", JStr (sim_timestamp now));
   (lit "eventId", JStr event_id);
   (lit "userId", JStr user);
   (lit "username", JStr user);
   (lit "loginType", JStr login_type);
   (lit "sourceIp", JStr (ip_string a b c d));
   (lit "country", JStr country);
   (lit "browser", JStr browser);
   (lit "platform", JStr platform);
   (lit "success", JBool success);
   (lit "sessionId", if success then JStr (firstn 8 session) else JNull);
   (lit "failureReason", if success then JNull else JStr reason)].

(** salesforce_simulator.py, lines 61-83 *)
Definition generate_api_event (now : datetime) (event_id user endpoint method : pystr)
    (status_code response_time records_get records_other : Z) (client : pystr) (a b c d : Z)
    : record :=
  [(lit "eventType", JStr (lit "API_Usage"));
   (lit "timestamp", JStr (sim_timestamp now));
   (lit "eventId", JStr event_id);
   (lit "userId", JStr user);
   (lit "apiEndpoint", JStr endpoint);
   (lit "httpMethod", JStr method);
   (lit "statusCode", JInt status_code);
   (lit "responseTime", JInt response_time);
   (lit "recordsProcessed",
      JInt (if str_eqb method (lit "GET") then records_get else records_other));
   (lit "apiVersion", JStr (lit "v58.0"));
   (lit "clientApplication", JStr client);
   (lit "sourceIp", JStr (ip_string a b c d))].

(** salesforce_simulator.py, lines 85-103 *)
Definition generate_data_event (now : datetime) (event_id user sobject action record_id : pystr)
    (fields : Z) (old_b new_b : bool) : record :=
  [(lit "eventType", JStr (lit "Data_Modification"));
   (lit "timestamp", JStr (sim_timestamp now));
   (lit "eventId", JStr event_id);
   (lit "userId", JStr user);
   (lit "sobjectType", JStr sobject);
   (lit "action", JStr action);
   (lit "recordId", JStr record_id);
   (lit "fieldsModified", JInt fields);
   (lit "oldValues", old_values old_b);
   (lit "newValues", new_values new_b)].

(** The keys [determine_log_type] reads. *)
Definition classify_keys : list pystr :=
  [lit "eventType"; lit "sourceSystem"; lit "latency"; lit "responseTime"; lit "error";
   lit "statusCode"; lit "uptime"; lit "availability"].

(** ** A concrete runtime, for the examples at the end *)

Definition demo_float (q : Q) : pystr := lit "0.0".
Definition demo_b64decode (s : pystr) : option (list Z) := Some [1; 2].
Definition demo_b64encode (l : list Z) : pystr := l.
Definition demo_hmac (k m : list Z) : list Z := k ++ m.
Definition demo_clock (n : nat) : datetime := mkdatetime 2026 10 18 12 0 0 0.
Definition demo_transport (n : nat) (c : post_call) : transport_result := Response 200 [].
Definition demo_ws_id : option pystr := Some (lit "ws").
Definition demo_ws_key : option pystr := Some (lit "a2V5").
Definition demo_world : world := mkworld 0 [].
Definition demo_bad_b64decode (s : pystr) : option (list Z) := None.

(** ** The function app, over its runtime *)

Section App.

(** Library routines: [float.__repr__] (used by [json.dumps]),
    [base64.b64decode] ([None] when it raises [binascii.Error]),
    [base64.b64encode(...).decode()], and
    [hmac.new(key, msg, hashlib.sha256).digest()]. *)
Variable float_repr : Q -> pystr.
Variable b64decode : pystr -> option (list Z).
Variable b64encode : list Z -> pystr.
Variable hmac_sha256 : list Z -> list Z -> list Z.

(** The world outside: the n-th reading of [datetime.datetime.utcnow()],
    and what the n-th [requests.post] call answers. *)
Variable utc_clock : nat -> datetime.
Variable transport : nat -> post_call -> transport_result.

(** [WS_ID] and [WS_KEY], read once from [os.environ] at import. *)
Variable WS_ID WS_KEY : option pystr.

Definition utcnow : M datetime :=
  fun w => (Ret (utc_clock (w_ticks w)), mkworld (S (w_ticks w)) (w_calls w)).

Definition requests_post (c : post_call) : M transport_result :=
  fun w => (Ret (transport (length (w_calls w)) c), mkworld (w_ticks w) (w_calls w ++ [c])).

(** Lines 45-51: one POST, a transport exception turned into a 500. *)
Definition send (url body_json : pystr) (headers : list (pystr * pystr)) : M (Z * pystr) :=
  let* resp := requests_post (mkcall url body_json headers 10) in
  match resp with
  | Response status_code text => ret (status_code, text)
  | RequestException e => ret (500, lit "Error posting to Log Analytics: " ++ e)
  end.

Definition missing_config : Z * pystr := (500, lit "Missing workspace configuration").

Definition post_to_law (body : json) (log_type : pystr) : M (Z * pystr) :=
  if py_not_config WS_ID || py_not_config WS_KEY then ret missing_config else
  match WS_ID, WS_KEY with
  | Some ws_id, Some ws_key =>
      let body_json := json_dumps float_repr body in
      let* now := utcnow in
      let ts := strftime ts_format now in
      let string_to_hash := string_to_hash body_json ts in
      match b64decode ws_key with
      | None => raise BinasciiError
      | Some decoded_key =>
          match utf8_encode string_to_hash with
          | None => raise UnicodeEncodeError
          | Some msg =>
              let signature := b64encode (hmac_sha256 decoded_key msg) in
              let headers :=
                [(lit "Content-Type", lit "application/json");
                 (lit "Authorization", lit "SharedKey " ++ ws_id ++ lit ":" ++ signature);
                 (lit "Log-Type", log_type);
                 (lit "x-ms-date", ts)] in
              let url := lit "https://" ++ ws_id ++ lit "." ++ collection_host
                         ++ lit "/api/logs?api-version=2016-04-01" in
              send url body_json headers
          end
      end
  | _, _ => ret missing_config   (* unreachable: both are set here *)
  end.

(** [k in payload] for whatever [req.get_json()] returned. *)
Definition py_contains (container : json) (k : pystr) : outcome bool :=
  match container with
  | JObj d => Ret (dict_has k d)
  | JArr l => Ret (existsb (fun x => json_is_str x k) l)
  | JStr s => Ret (str_contains s k)
  | _ => Raise TypeError
  end.

(** [payload[k] = v]: only a dict accepts a string index. *)
Definition py_setitem (container : json) (k : pystr) (v : json) : outcome json :=
  match container with
  | JObj d => Ret (JObj (dict_set k v d))
  | _ => Raise TypeError
  end.

(** [if 'timestamp' not in payload: payload['timestamp'] = utcnow().isoformat()] *)
Definition default_timestamp (payload : json) : M json :=
  let* present := lift (py_contains payload (lit "timestamp")) in
  if present then ret payload
  else let* now := utcnow in lift (py_setitem payload (lit "timestamp") (JStr (isoformat now))).

(** [if 'sourceSystem' not in payload: payload['sourceSystem'] = src] *)
Definition default_source (payload : json) (src : pystr) : M json :=
  let* present := lift (py_contains payload (lit "sourceSystem")) in
  if present then ret payload
  else lift (py_setitem payload (lit "sourceSystem") (JStr src)).

(** The three handlers take what [req.get_json()] gives: [None] when it
    raised [ValueError] (an empty body or one that is not JSON). *)

Definition salesforceLogHandler (req_json : option json) : M http_response :=
  match req_json with
  | None => ret (mkresp (lit "Invalid JSON") 400)
  | Some payload =>
      if negb (py_truthy payload) then ret (mkresp (lit "Empty or invalid JSON payload") 400) else
      let* payload := default_timestamp payload in
      let* payload := default_source payload (lit "Salesforce") in
      let* r := post_to_law payload (lit "SalesforceEvent") in
      let (code, text) := r in
      if code =? 200
      then ret (mkresp (lit "Salesforce event logged successfully: " ++ text) 200)
      else ret (mkresp (lit "Failed to log Salesforce event: " ++ text) code)
  end.

Definition mulesoftLogHandler (req_json : option json) : M http_response :=
  match req_json with
  | None => ret (mkresp (lit "Invalid JSON") 400)
  | Some payload =>
      if negb (py_truthy payload) then ret (mkresp (lit "Empty or invalid JSON payload") 400) else
      let* payload := default_timestamp payload in
      let* payload := default_source payload (lit "MuleSoft") in
      let* log_type := lift (determine_log_type payload) in
      let* r := post_to_law payload (category_name log_type) in
      let (code, text) := r in
      if code =? 200
      then ret (mkresp (lit "MuleSoft event logged successfully to " ++ category_name log_type
                        ++ lit ": " ++ text) 200)
      else ret (mkresp (lit "Failed to log MuleSoft event: " ++ text) code)
  end.

Definition universalLogHandler (req_json : option json) : M http_response :=
  match req_json with
  | None => ret (mkresp (lit "Invalid JSON") 400)
  | Some payload =>
      if negb (py_truthy payload) then ret (mkresp (lit "Empty or invalid JSON payload") 400) else
      let* payload := default_timestamp payload in
      let* log_type := lift (determine_log_type payload) in
      let* r := post_to_law payload (category_name log_type) in
      let (code, text) := r in
      if code =? 200
      then ret (mkresp (lit "Event logged successfully to " ++ category_name log_type
                        ++ lit ": " ++ text) 200)
      else ret (mkresp (lit "Failed to log event: " ++ text) code)
  end.

(** ** Definitions following the spec's words *)

(** The string-to-sign as §4.2 step 3 lists it: five lines joined by a
    newline, the second being the decimal byte-length of the body. *)
Definition string_to_sign_spec (body_bytes : list Z) (ts : pystr) : pystr :=
  join NL [lit "POST"; digits (Z.of_nat (length body_bytes)); lit "application/json";
           lit "x-ms-date:" ++ ts; lit "/api/logs"].

(** §4.2 step 5: base64 of the HMAC-SHA256 of the UTF-8 bytes of the
    string-to-sign under the decoded key. *)
Definition signature_spec (key_bytes body_bytes : list Z) (ts : pystr) : option pystr :=
  match utf8_encode (string_to_sign_spec body_bytes ts) with
  | Some m => Some (b64encode (hmac_sha256 key_bytes m))
  | None => None
  end.

(** An RFC 1123 date: day-name "," SP 2DIGIT SP month SP 4DIGIT SP
    2DIGIT ":" 2DIGIT ":" 2DIGIT SP "GMT". *)
Definition rfc1123_date (t : datetime) : pystr :=
  nth (Z.to_nat (weekday t)) day_abbr [] ++ lit ", " ++ zpad 2 (dt_day t) ++ lit " "
  ++ nth (Z.to_nat (dt_month t - 1)) month_abbr [] ++ lit " " ++ zpad 4 (dt_year t) ++ lit " "
  ++ zpad 2 (dt_hour t) ++ lit ":" ++ zpad 2 (dt_minute t) ++ lit ":" ++ zpad 2 (dt_second t)
  ++ lit " GMT".

(** A string-valued field. *)
Definition str_field (k : pystr) (r : record) : option pystr :=
  match dict_get k r with Some (JStr s) => Some s | _ => None end.

(** "a numeric [statusCode] >= 400" *)
Definition numeric_ge_400 (v : json) : bool :=
  match v with
  | JInt z => 400 <=? z
  | JFloat (FFin q) => Qle_bool (400 # 1) q
  | JFloat FInf => true
  | _ => false
  end.

(** The decision order of §4.1, first match wins. *)
Definition classify_spec (r : record) : category :=
  let ss := str_field (lit "sourceSystem") r in
  let et := str_field (lit "eventType") r in
  let ss_mule := match ss with Some s => str_eqb (py_lower s) (lit "mulesoft") | None => false end in
  let et_mule := match et with Some e => startswith e (lit "MuleSoft") | None => false end in
  if ss_mule || et_mule then
    if dict_has (lit "latency") r || dict_has (lit "responseTime") r then MuleSoftPerformance
    else if dict_has (lit "error") r
            || match dict_get (lit "statusCode") r with Some v => numeric_ge_400 v | None => false end
    then MuleSoftError
    else if dict_has (lit "uptime") r || dict_has (lit "availability") r then MuleSoftUptime
    else MuleSoftGeneral
  else if match ss with Some s => str_contains (py_lower s) (lit "salesforce") | None => false end
          || match et with
             | Some e => existsb (str_eqb e) [lit "Login"; lit "API_Usage"; lit "Data_Modification"]
             | None => false
             end
  then SalesforceEvent
  else GeneralEvent.

(** The typed well-known keys of the data model (§3): [sourceSystem] and
    [eventType] are strings and [statusCode] is a number when present. *)
Definition wf_record (r : record) : bool :=
  match dict_get (lit "sourceSystem") r with None | Some (JStr _) => true | _ => false end
  && match dict_get (lit "eventType") r with None | Some (JStr _) => true | _ => false end
  && match dict_get (lit "statusCode") r with
     | None | Some (JInt _) | Some (JFloat _) | Some (JBool _) => true
     | _ => false
     end.

(** "a string" and "a number" in the words of the spec (§3); a [bool]
    is a number in Python. *)
Definition json_is_string (v : json) : bool :=
  match v with JStr _ => true | _ => false end.
Definition json_is_number (v : json) : bool :=
  match v with JBool _ | JInt _ | JFloat _ => true | _ => false end.

(** [sourceSystem] is absent or a string. *)
Definition source_typed (r : record) : bool :=
  match dict_get (lit "sourceSystem") r with Some v => json_is_string v | None => true end.

(** [sourceSystem] is a string that case-insensitively equals "mulesoft". *)
Definition source_is_mulesoft (r : record) : bool :=
  match str_field (lit "sourceSystem") r with
  | Some s => str_eqb (py_lower s) (lit "mulesoft")
  | None => false
  end.

(** The first test of the decision order: the MuleSoft path. *)
Definition on_mule_path (r : record) : bool :=
  source_is_mulesoft r
  || match str_field (lit "eventType") r with
     | Some e => startswith e (lit "MuleSoft")
     | None => false
     end.

(** Every code point is ASCII. *)
Definition is_ascii (s : pystr) : Prop := Forall (fun c => 0 <= c < 128) s.
Definition ascii_b (s : pystr) : bool := forallb (fun c => (0 <=? c) && (c <? 128)) s.

Definition mule_categories : list category :=
  [MuleSoftPerformance; MuleSoftError; MuleSoftUptime; MuleSoftGeneral].

(** [m] only appends POSTs that satisfy [P] to the world. *)
Definition adds_calls {A} (P : post_call -> Prop) (m : M A) : Prop :=
  forall w, exists cs, w_calls (snd (m w)) = w_calls w ++ cs /\ Forall P cs.

(** The POSTs [m] issues from [w] all carry the serialization of [r]. *)
Definition forwards {A} (m : M A) (w : world) (r : record) : Prop :=
  exists cs, w_calls (snd (m w)) = w_calls w ++ cs
             /\ Forall (fun c => pc_data c = json_dumps float_repr (JObj r)) cs.

(** The keys the handlers add: [timestamp] from the clock when absent, and
    [sourceSystem] when absent. *)
Definition ts_fill (d : record) (w : world) : record :=
  if dict_has (lit "timestamp") d then []
  else [(lit "timestamp", JStr (isoformat (utc_clock (w_ticks w))))].

Definition src_fill (d : record) (src : pystr) : record :=
  if dict_has (lit "sourceSystem") d then [] else [(lit "sourceSystem", JStr src)].

(** [m] either answers without a POST and without status 200, or ends in
    one [post_to_law] call made from a world with the same POSTs, and
    answers 200 only when that call returned code 200. *)
Definition via_post (m : M http_response) : Prop :=
  forall w,
    (w_calls (snd (m w)) = w_calls w /\ host_status (fst (m w)) <> 200) \/
    (exists body lt w1,
       w_calls w1 = w_calls w /\
       w_calls (snd (m w)) = w_calls (snd (post_to_law body lt w1)) /\
       (host_status (fst (m w)) = 200 -> exists t, fst (post_to_law body lt w1) = Ret (200, t))).

(** ** Lemmas *)

Lemma ascii_b_ok s : ascii_b s = true -> is_ascii s.
Proof.
  induction s as [|c s IH]; simpl; intros H; constructor.
  - apply andb_prop in H as [H _]. apply andb_prop in H as [H1 H2].
    apply Z.leb_le in H1. apply Z.ltb_lt in H2. lia.
  - apply andb_prop in H as [_ H]. exact (IH H).
Qed.

Lemma is_ascii_app a b : is_ascii a -> is_ascii b -> is_ascii (a ++ b).
Proof. intros Ha Hb. apply Forall_app; split; assumption. Qed.

Lemma digits_aux_ascii f n acc : is_ascii acc -> is_ascii (digits_aux f n acc).
Proof.
  revert n acc; induction f as [|f IH]; intros n acc H; cbn [digits_aux]; [exact H|].
  assert (0 <= n mod 10 < 10) by (apply Z.mod_pos_bound; lia).
  destruct (n <? 10); [|apply IH]; (constructor; [lia | exact H]).
Qed.

Lemma digits_ascii n : is_ascii (digits n).
Proof. apply digits_aux_ascii. constructor. Qed.

Lemma int_repr_ascii z : is_ascii (int_repr z).
Proof.
  unfold int_repr. destruct (z <? 0); [constructor; [lia|]|]; apply digits_ascii.
Qed.

Lemma zpad_ascii w z : is_ascii (zpad w z).
Proof.
  unfold zpad. apply is_ascii_app; [|apply digits_ascii].
  apply Forall_forall. intros x Hx. apply repeat_spec in Hx. lia.
Qed.

Lemma nth_ascii (l : list pystr) n : Forall is_ascii l -> is_ascii (nth n l []).
Proof.
  intros H. revert n; induction H; intros [|n]; simpl; auto; constructor.
Qed.

Lemma forallb_ascii_ok l : forallb ascii_b l = true -> Forall is_ascii l.
Proof.
  intros H. apply Forall_forall. intros x Hx.
  apply ascii_b_ok. exact (proj1 (forallb_forall _ _) H x Hx).
Qed.

Lemma day_abbr_ascii : Forall is_ascii day_abbr.
Proof. apply forallb_ascii_ok. reflexivity. Qed.

Lemma month_abbr_ascii : Forall is_ascii month_abbr.
Proof. apply forallb_ascii_ok. reflexivity. Qed.

Lemma lit_ascii_cons c s : ascii_b (c :: s) = true -> is_ascii (c :: s).
Proof. apply ascii_b_ok. Qed.

Ltac ascii_tac :=
  repeat first
    [ apply digits_ascii | apply int_repr_ascii | apply zpad_ascii
    | apply is_ascii_app
    | apply nth_ascii; first [apply day_abbr_ascii | apply month_abbr_ascii]
    | apply lit_ascii_cons; reflexivity
    | match goal with |- _ <= _ < _ => lia end
    | constructor ].

Lemma strftime_ts_format t :
  strftime ts_format t =
  nth (Z.to_nat (weekday t)) day_abbr [] ++ 44 :: 32 :: zpad 2 (dt_day t) ++ 32
  :: nth (Z.to_nat (dt_month t - 1)) month_abbr [] ++ 32 :: int_repr (dt_year t) ++ 32
  :: zpad 2 (dt_hour t) ++ 58 :: zpad 2 (dt_minute t) ++ 58 :: zpad 2 (dt_second t) ++ lit " GMT".
Proof. reflexivity. Qed.

Lemma strftime_ts_ascii t : is_ascii (strftime ts_format t).
Proof. rewrite strftime_ts_format. ascii_tac. Qed.

Lemma utf8_encode_ascii s : is_ascii s -> utf8_encode s = Some s.
Proof.
  induction 1 as [|c s Hc _ IH]; simpl; [reflexivity|].
  unfold utf8_char. destruct (Z.ltb_spec c 0); [lia|].
  destruct (Z.ltb_spec c 128); [|lia]. rewrite IH. reflexivity.
Qed.

Lemma string_to_hash_ascii bj ts : is_ascii ts -> is_ascii (string_to_hash bj ts).
Proof. intros Hts. unfold string_to_hash. ascii_tac; exact Hts. Qed.

Lemma join_ascii sep l : is_ascii sep -> Forall is_ascii l -> is_ascii (join sep l).
Proof.
  intros Hs Hl. induction Hl as [|x l Hx Hl IH]; [constructor|].
  destruct l as [|y l]; [exact Hx|].
  change (is_ascii (x ++ sep ++ join sep (y :: l))). ascii_tac; assumption.
Qed.

Lemma escape_hex_ascii x : 0 <= hexdigit (Z.land x 15) < 128.
Proof.
  assert (0 <= Z.land x 15 < 16).
  { change 15 with (Z.ones 4). rewrite Z.land_ones by lia. apply Z.mod_pos_bound. lia. }
  unfold hexdigit. destruct (Z.ltb_spec (Z.land x 15) 10); lia.
Qed.

Lemma u_escape_ascii c : is_ascii (u_escape c).
Proof.
  unfold u_escape. repeat constructor; try lia; apply escape_hex_ascii.
Qed.

Lemma ascii_escape_unichar_ascii c : is_ascii (ascii_escape_unichar c).
Proof.
  unfold ascii_escape_unichar.
  destruct ((32 <=? c) && (c <=? 126) && negb (c =? 92) && negb (c =? 34)) eqn:E.
  - apply andb_prop in E as [E _]. apply andb_prop in E as [E _].
    apply andb_prop in E as [E1 E2]. apply Z.leb_le in E1. apply Z.leb_le in E2.
    constructor; [lia | constructor].
  - repeat match goal with |- context [if ?b then _ else _] => destruct b end;
      first [ apply u_escape_ascii
            | apply is_ascii_app; apply u_escape_ascii
            | apply ascii_b_ok; reflexivity ].
Qed.

Lemma encode_basestring_ascii_ascii s : is_ascii (encode_basestring_ascii s).
Proof.
  unfold encode_basestring_ascii. ascii_tac.
  induction s as [|c s IH]; [constructor|]. simpl. apply is_ascii_app; [|exact IH].
  apply ascii_escape_unichar_ascii.
Qed.

Lemma json_dumps_ascii :
  (forall q, is_ascii (float_repr q)) -> forall v, is_ascii (json_dumps float_repr v).
Proof.
  intros Hf. fix IH 1. intros [| b | z | f | s | l | d].
  - apply ascii_b_ok; reflexivity.
  - destruct b; apply ascii_b_ok; reflexivity.
  - apply int_repr_ascii.
  - destruct f; [apply Hf | apply ascii_b_ok; reflexivity ..].
  - apply encode_basestring_ascii_ascii.
  - cbn [json_dumps]. ascii_tac. apply join_ascii; [apply ascii_b_ok; reflexivity|].
    induction l as [|x l IHl]; constructor; [apply IH | exact IHl].
  - cbn [json_dumps]. ascii_tac. apply join_ascii; [apply ascii_b_ok; reflexivity|].
    induction d as [|[k x] d IHd]; constructor; [|exact IHd].
    apply is_ascii_app; [apply encode_basestring_ascii_ascii|].
    apply is_ascii_app; [apply ascii_b_ok; reflexivity | apply IH].
Qed.
Lemma post_to_law_configured body lt w ws_id ws_key dk :
  WS_ID = Some ws_id -> WS_KEY = Some ws_key -> ws_id <> [] -> ws_key <> [] ->
  b64decode ws_key = Some dk ->
  post_to_law body lt w =
    (let body_json := json_dumps float_repr body in
     let ts := strftime ts_format (utc_clock (w_ticks w)) in
     let c := mkcall (lit "https://" ++ ws_id ++ lit "." ++ collection_host
                      ++ lit "/api/logs?api-version=2016-04-01")
                body_json
                [(lit "Content-Type", lit "application/json");
                 (lit "Authorization", lit "SharedKey " ++ ws_id ++ lit ":"
                    ++ b64encode (hmac_sha256 dk (string_to_hash body_json ts)));
                 (lit "Log-Type", lt); (lit "x-ms-date", ts)] 10 in
     (Ret (match transport (length (w_calls w)) c with
           | Response s t => (s, t)
           | RequestException e => (500, lit "Error posting to Log Analytics: " ++ e)
           end),
      mkworld (S (w_ticks w)) (w_calls w ++ [c]))).
Proof.
  intros Hid Hkey Hid0 Hkey0 Hdk. unfold post_to_law. rewrite Hid, Hkey.
  destruct ws_id as [|a ws_id]; [congruence|].
  destruct ws_key as [|b ws_key]; [congruence|].
  cbn [py_not_config orb]. unfold bind at 1, utcnow. cbn [w_ticks w_calls].
  rewrite Hdk.
  rewrite utf8_encode_ascii by (apply string_to_hash_ascii, strftime_ts_ascii).
  unfold send, bind, requests_post. cbn [w_ticks w_calls].
  destruct (transport _ _); reflexivity.
Qed.

Lemma digits_aux_length_ge f n acc : (length acc <= length (digits_aux f n acc))%nat.
Proof.
  revert n acc; induction f as [|f IH]; intros n acc; cbn [digits_aux]; [lia|].
  destruct (n <? 10); [cbn [length]; lia|].
  specialize (IH (n / 10) (48 + n mod 10 :: acc)). cbn [length] in IH. lia.
Qed.

Lemma digits_aux_length f n acc (k : nat) :
  10 ^ Z.of_nat k <= n -> (k < f)%nat -> (k + 1 + length acc <= length (digits_aux f n acc))%nat.
Proof.
  revert f n acc; induction k as [|k IH]; intros f n acc Hn Hf;
    (destruct f as [|f]; [lia|]); cbn [digits_aux].
  - destruct (n <? 10); [cbn [length]; lia|].
    pose proof (digits_aux_length_ge f (n / 10) (48 + n mod 10 :: acc)) as H. cbn [length] in H. lia.
  - pose proof (Z.pow_pos_nonneg 10 (Z.of_nat k) ltac:(lia) ltac:(lia)) as Hp.
    rewrite Nat2Z.inj_succ, Z.pow_succ_r in Hn by lia.
    destruct (Z.ltb_spec n 10); [lia|].
    assert (Hd : 10 ^ Z.of_nat k <= n / 10) by (apply Z.div_le_lower_bound; lia).
    specialize (IH f (n / 10) (48 + n mod 10 :: acc) Hd ltac:(lia)). cbn [length] in IH. lia.
Qed.

Lemma zpad4_year y : 1000 <= y -> zpad 4 y = int_repr y.
Proof.
  intros Hy. unfold zpad, int_repr.
  destruct (Z.ltb_spec y 0); [lia|].
  assert (Hl : 9 <= Z.log2 y) by (change 9 with (Z.log2 512); apply Z.log2_le_mono; lia).
  pose proof (digits_aux_length (Z.to_nat (Z.log2 y + 2)) y [] 3 ltac:(simpl; lia) ltac:(lia)) as Hd.
  unfold digits. cbn [length] in Hd. replace (4 - _)%nat with 0%nat by lia. reflexivity.
Qed.

Lemma strftime_rfc1123 t : 1000 <= dt_year t -> strftime ts_format t = rfc1123_date t.
Proof.
  intros Hy. rewrite strftime_ts_format. unfold rfc1123_date. rewrite (zpad4_year _ Hy).
  reflexivity.
Qed.

Lemma string_to_hash_spec bj ts :
  string_to_hash bj ts = string_to_sign_spec bj ts.
Proof.
  unfold string_to_hash, string_to_sign_spec, int_repr.
  destruct (Z.ltb_spec (Z.of_nat (length bj)) 0); [lia|].
  cbn [join]. rewrite <- !app_assoc. reflexivity.
Qed.

Lemma post_to_law_calls body lt w :
  exists cs, w_calls (snd (post_to_law body lt w)) = w_calls w ++ cs
             /\ (length cs <= 1)%nat /\ Forall (fun c => pc_timeout c = 10) cs.
Proof.
  unfold post_to_law.
  destruct (py_not_config WS_ID || py_not_config WS_KEY).
  { exists []. rewrite app_nil_r. auto. }
  destruct WS_ID as [ws_id|]; [|exists []; rewrite app_nil_r; auto].
  destruct WS_KEY as [ws_key|]; [|exists []; rewrite app_nil_r; auto].
  unfold bind at 1, utcnow. cbn [w_ticks w_calls].
  destruct (b64decode ws_key) as [dk|]; [|exists []; rewrite app_nil_r; auto].
  destruct (utf8_encode _) as [m|]; [|exists []; rewrite app_nil_r; auto].
  unfold send, bind, requests_post. cbn [w_calls].
  destruct (transport _ _); eexists; (split; [reflexivity|]); split; simpl; auto.
Qed.

Lemma dict_set_absent k v d : dict_has k d = false -> dict_set k v d = d ++ [(k, v)].
Proof.
  unfold dict_has. induction d as [|[k' v'] d IH]; simpl; [reflexivity|].
  destruct (str_eqb k k'); [discriminate|]. intros H. rewrite (IH H). reflexivity.
Qed.

Lemma default_timestamp_obj d w :
  default_timestamp (JObj d) w =
    if dict_has (lit "timestamp") d then (Ret (JObj d), w)
    else (Ret (JObj (d ++ [(lit "timestamp", JStr (isoformat (utc_clock (w_ticks w))))])),
          mkworld (S (w_ticks w)) (w_calls w)).
Proof.
  unfold default_timestamp, bind, lift, ret, utcnow. cbn [py_contains py_setitem].
  destruct (dict_has _ d) eqn:E; [reflexivity|]. rewrite dict_set_absent by exact E. reflexivity.
Qed.

Lemma default_timestamp_calls p w : w_calls (snd (default_timestamp p w)) = w_calls w.
Proof.
  unfold default_timestamp, bind, lift, ret, utcnow.
  destruct (py_contains p _) as [[]|]; reflexivity.
Qed.

Lemma default_source_obj d src w :
  default_source (JObj d) src w =
    if dict_has (lit "sourceSystem") d then (Ret (JObj d), w)
    else (Ret (JObj (d ++ [(lit "sourceSystem", JStr src)])), w).
Proof.
  unfold default_source, bind, lift, ret. cbn [py_contains py_setitem].
  destruct (dict_has _ d) eqn:E; [reflexivity|]. rewrite dict_set_absent by exact E. reflexivity.
Qed.

Lemma default_source_world p src w : snd (default_source p src w) = w.
Proof.
  unfold default_source, bind, lift, ret. destruct (py_contains p _) as [[]|]; reflexivity.
Qed.

(** ** Claims about the signed request builder *)

(** C1: with the credential set and the key decodable, the one POST
    [post_to_law] issues carries the serialized body and the signature
    [base64(HMAC-SHA256(decoded key, UTF-8 bytes of the string-to-sign))],
    where the string-to-sign is the five lines "POST", the decimal
    byte-length of the body (whose UTF-8 bytes are its characters, all
    ASCII), "application/json", "x-ms-date:" and the timestamp, and
    "/api/logs", newline-joined without a trailing newline.  The signature
    is [signature_spec] of (key bytes, body bytes, timestamp) alone, so
    equal inputs give equal signatures. *)
Theorem post_to_law_signature body lt w ws_id ws_key dk :
  WS_ID = Some ws_id -> WS_KEY = Some ws_key -> ws_id <> [] -> ws_key <> [] ->
  b64decode ws_key = Some dk ->
  (forall q, is_ascii (float_repr q)) ->
  let body_json := json_dumps float_repr body in
  let ts := strftime ts_format (utc_clock (w_ticks w)) in
  utf8_encode body_json = Some body_json /\
  string_to_hash body_json ts = string_to_sign_spec body_json ts /\
  exists c sig,
    w_calls (snd (post_to_law body lt w)) = w_calls w ++ [c] /\
    pc_data c = body_json /\
    signature_spec dk body_json ts = Some sig /\
    In (lit "Authorization", lit "SharedKey " ++ ws_id ++ lit ":" ++ sig) (pc_headers c).
Proof.
  intros Hid Hkey Hid0 Hkey0 Hdk Hf body_json ts.
  assert (Hb : utf8_encode body_json = Some body_json)
    by (apply utf8_encode_ascii, json_dumps_ascii, Hf).
  split; [exact Hb|]. split; [apply string_to_hash_spec|].
  rewrite (post_to_law_configured body lt w ws_id ws_key dk Hid Hkey Hid0 Hkey0 Hdk).
  eexists; eexists. split; [reflexivity|]. split; [reflexivity|]. split.
  - unfold signature_spec. rewrite <- string_to_hash_spec.
    rewrite utf8_encode_ascii by (apply string_to_hash_ascii, strftime_ts_ascii).
    reflexivity.
  - simpl. auto.
Qed.

(** C3: the built request carries exactly the headers Content-Type,
    Authorization ("SharedKey <id>:<signature>"), Log-Type and x-ms-date,
    the last being the timestamp that is signed; that timestamp is the
    current UTC clock reading formatted as an RFC 1123 date ending in
    "GMT"; the URL is https://<id>.<collection host>/api/logs?api-version=2016-04-01
    with the fixed host ods.opinsights.azure.com. *)
Theorem post_to_law_request_shape body lt w ws_id ws_key dk :
  WS_ID = Some ws_id -> WS_KEY = Some ws_key -> ws_id <> [] -> ws_key <> [] ->
  b64decode ws_key = Some dk ->
  1000 <= dt_year (utc_clock (w_ticks w)) ->
  let now := utc_clock (w_ticks w) in
  let ts := strftime ts_format now in
  ts = rfc1123_date now /\
  exists c sig,
    w_calls (snd (post_to_law body lt w)) = w_calls w ++ [c] /\
    pc_headers c = [(lit "Content-Type", lit "application/json");
                    (lit "Authorization", lit "SharedKey " ++ ws_id ++ lit ":" ++ sig);
                    (lit "Log-Type", lt);
                    (lit "x-ms-date", ts)] /\
    sig = b64encode (hmac_sha256 dk (string_to_hash (pc_data c) ts)) /\
    pc_url c = lit "https://" ++ ws_id ++ lit "." ++ collection_host
               ++ lit "/api/logs?api-version=2016-04-01" /\
    collection_host = lit "ods.opinsights.azure.com".
Proof.
  intros Hid Hkey Hid0 Hkey0 Hdk Hy now ts.
  split; [apply strftime_rfc1123, Hy|].
  rewrite (post_to_law_configured body lt w ws_id ws_key dk Hid Hkey Hid0 Hkey0 Hdk).
  eexists; eexists. repeat split; reflexivity.
Qed.

(** C7: [send] issues exactly one POST, with a 10 second timeout, and
    always returns: the downstream status code and text, or 500 with the
    error message when the transport raises.  Per record [post_to_law]
    issues at most one POST, with that timeout. *)
Theorem send_single_post url body_json headers w :
  send url body_json headers w =
    (Ret (match transport (length (w_calls w)) (mkcall url body_json headers 10) with
          | Response s t => (s, t)
          | RequestException e => (500, lit "Error posting to Log Analytics: " ++ e)
          end),
     mkworld (w_ticks w) (w_calls w ++ [mkcall url body_json headers 10])) /\
  (forall body lt, exists cs,
      w_calls (snd (post_to_law body lt w)) = w_calls w ++ cs /\
      (length cs <= 1)%nat /\ Forall (fun c => pc_timeout c = 10) cs).
Proof.
  split.
  - unfold send, bind, requests_post. destruct (transport _ _); reflexivity.
  - intros body lt. apply post_to_law_calls.
Qed.

(** ** Claims about the handlers *)


Lemma adds_ret {A} P (a : A) : adds_calls P (ret a).
Proof. intros w. exists []. rewrite app_nil_r. auto. Qed.

Lemma adds_lift {A} P (o : outcome A) : adds_calls P (lift o).
Proof. intros w. exists []. rewrite app_nil_r. auto. Qed.

Lemma adds_bind {A B} P (m : M A) (f : A -> M B) :
  adds_calls P m -> (forall a, adds_calls P (f a)) -> adds_calls P (bind m f).
Proof.
  intros Hm Hf w. unfold bind. destruct (Hm w) as [cs [Hc Hp]].
  destruct (m w) as [[a|e] w']; cbn [snd] in Hc.
  - destruct (Hf a w') as [cs' [Hc' Hp']]. exists (cs ++ cs').
    rewrite Hc', Hc, app_assoc. split; [reflexivity|]. apply Forall_app; auto.
  - exists cs. auto.
Qed.

Lemma adds_bind_lift {A B} P (o : outcome A) (f : A -> M B) :
  (forall a, o = Ret a -> adds_calls P (f a)) -> adds_calls P (bind (lift o) f).
Proof.
  intros Hf w. unfold bind, lift. destruct o as [a|e].
  - apply (Hf a eq_refl w).
  - exists []. rewrite app_nil_r. auto.
Qed.

Lemma adds_mono {A} (P Q : post_call -> Prop) (m : M A) :
  (forall c, P c -> Q c) -> adds_calls P m -> adds_calls Q m.
Proof.
  intros HPQ Hm w. destruct (Hm w) as [cs [Hc Hp]]. exists cs. split; [exact Hc|].
  eapply Forall_impl; eauto.
Qed.

Lemma default_timestamp_adds P p : adds_calls P (default_timestamp p).
Proof. intros w. exists []. rewrite app_nil_r, default_timestamp_calls. auto. Qed.

Lemma default_source_adds P p src : adds_calls P (default_source p src).
Proof. intros w. exists []. rewrite app_nil_r, default_source_world. auto. Qed.

Lemma post_to_law_adds body lt :
  adds_calls (fun c => In (lit "Log-Type", lt) (pc_headers c) /\ pc_timeout c = 10
                       /\ pc_data c = json_dumps float_repr body)
             (post_to_law body lt).
Proof.
  intros w. unfold post_to_law.
  destruct (py_not_config WS_ID || py_not_config WS_KEY).
  { exists []. rewrite app_nil_r. auto. }
  destruct WS_ID as [ws_id|]; [|exists []; rewrite app_nil_r; auto].
  destruct WS_KEY as [ws_key|]; [|exists []; rewrite app_nil_r; auto].
  unfold bind at 1, utcnow. cbn [w_ticks w_calls].
  destruct (b64decode ws_key) as [dk|]; [|exists []; rewrite app_nil_r; auto].
  destruct (utf8_encode _) as [m|]; [|exists []; rewrite app_nil_r; auto].
  unfold send, bind, requests_post. cbn [w_calls].
  destruct (transport _ _); eexists; (split; [reflexivity|]);
    (constructor; [split; [simpl; auto 6 | split; reflexivity] | constructor]).
Qed.

Lemma post_to_law_missing body lt w :
  py_not_config WS_ID = true \/ py_not_config WS_KEY = true ->
  post_to_law body lt w = (Ret missing_config, w).
Proof.
  intros H. unfold post_to_law.
  destruct H as [H|H]; rewrite H; [reflexivity|]. rewrite orb_true_r. reflexivity.
Qed.

Lemma post_to_law_missing_adds P body lt :
  py_not_config WS_ID = true \/ py_not_config WS_KEY = true -> adds_calls P (post_to_law body lt).
Proof.
  intros H w. rewrite (post_to_law_missing body lt w H). exists []. rewrite app_nil_r. auto.
Qed.

Ltac adds_crunch tac :=
  repeat first
    [ apply adds_ret | apply adds_lift | tac
    | apply default_timestamp_adds | apply default_source_adds
    | apply adds_bind; [| intros ?] 
    | match goal with
      | |- adds_calls _ (match ?r with (_, _) => _ end) => destruct r
      | |- adds_calls _ (if ?b then _ else _) => destruct b
      | |- adds_calls _ (match ?o with Some _ => _ | None => _ end) => destruct o
      end ].


Lemma adds_nil {A} (m : M A) w : adds_calls (fun _ => False) m -> w_calls (snd (m w)) = w_calls w.
Proof.
  intros H. destruct (H w) as [cs [Hc Hf]]. destruct cs as [|c cs].
  - rewrite Hc, app_nil_r. reflexivity.
  - inversion Hf. contradiction.
Qed.

Lemma post_to_law_adds_at body lt w :
  exists cs, w_calls (snd (post_to_law body lt w)) = w_calls w ++ cs /\
    Forall (fun c => In (lit "Log-Type", lt) (pc_headers c) /\ pc_timeout c = 10
                     /\ pc_data c = json_dumps float_repr body) cs.
Proof. apply post_to_law_adds. Qed.

Lemma universal_step d w p w1 :
  d <> [] -> default_timestamp (JObj d) w = (Ret p, w1) ->
  universalLogHandler (Some (JObj d)) w =
    match determine_log_type p with
    | Raise e => (Raise e, w1)
    | Ret c =>
        match post_to_law p (category_name c) w1 with
        | (Ret (code, text), w2) =>
            (Ret (if code =? 200
                  then mkresp (lit "Event logged successfully to " ++ category_name c
                               ++ lit ": " ++ text) 200
                  else mkresp (lit "Failed to log event: " ++ text) code), w2)
        | (Raise e, w2) => (Raise e, w2)
        end
    end.
Proof.
  intros Hd Hp. destruct d as [|kv d]; [congruence|].
  unfold universalLogHandler. cbn [py_truthy negb]. unfold bind at 1. rewrite Hp.
  unfold bind, lift. destruct (determine_log_type p); [|reflexivity].
  destruct (post_to_law p _ w1) as [[[code text]|e] w2]; [destruct (code =? 200)|]; reflexivity.
Qed.

Lemma mulesoft_step d w p w1 p' w2 :
  d <> [] -> default_timestamp (JObj d) w = (Ret p, w1) ->
  default_source p (lit "MuleSoft") w1 = (Ret p', w2) ->
  mulesoftLogHandler (Some (JObj d)) w =
    match determine_log_type p' with
    | Raise e => (Raise e, w2)
    | Ret c =>
        match post_to_law p' (category_name c) w2 with
        | (Ret (code, text), w3) =>
            (Ret (if code =? 200
                  then mkresp (lit "MuleSoft event logged successfully to " ++ category_name c
                               ++ lit ": " ++ text) 200
                  else mkresp (lit "Failed to log MuleSoft event: " ++ text) code), w3)
        | (Raise e, w3) => (Raise e, w3)
        end
    end.
Proof.
  intros Hd Hp Hp'. destruct d as [|kv d]; [congruence|].
  unfold mulesoftLogHandler. cbn [py_truthy negb]. unfold bind at 1. rewrite Hp.
  unfold bind at 1. rewrite Hp'.
  unfold bind, lift. destruct (determine_log_type p'); [|reflexivity].
  destruct (post_to_law p' _ w2) as [[[code text]|e] w3]; [destruct (code =? 200)|]; reflexivity.
Qed.

Lemma salesforce_step d w p w1 p' w2 :
  d <> [] -> default_timestamp (JObj d) w = (Ret p, w1) ->
  default_source p (lit "Salesforce") w1 = (Ret p', w2) ->
  salesforceLogHandler (Some (JObj d)) w =
    match post_to_law p' (lit "SalesforceEvent") w2 with
    | (Ret (code, text), w3) =>
        (Ret (if code =? 200
              then mkresp (lit "Salesforce event logged successfully: " ++ text) 200
              else mkresp (lit "Failed to log Salesforce event: " ++ text) code), w3)
    | (Raise e, w3) => (Raise e, w3)
    end.
Proof.
  intros Hd Hp Hp'. destruct d as [|kv d]; [congruence|].
  unfold salesforceLogHandler. cbn [py_truthy negb]. unfold bind at 1. rewrite Hp.
  unfold bind at 1. rewrite Hp'.
  unfold bind. destruct (post_to_law p' _ w2) as [[[code text]|e] w3]; [destruct (code =? 200)|]; reflexivity.
Qed.

Lemma str_eqb_refl s : str_eqb s s = true.
Proof. unfold str_eqb. destruct (list_eq_dec Z.eq_dec s s); congruence. Qed.

Lemma str_eqb_eq a b : str_eqb a b = true -> a = b.
Proof. unfold str_eqb. destruct (list_eq_dec Z.eq_dec a b); congruence. Qed.

Lemma dict_get_app_absent k d e :
  dict_get k d = None -> dict_get k (d ++ e) = dict_get k e.
Proof.
  induction d as [|[k' v'] d IH]; simpl; [reflexivity|].
  destruct (str_eqb k k'); [discriminate|]. exact IH.
Qed.

Lemma dict_get_app_present k d e v :
  dict_get k d = Some v -> dict_get k (d ++ e) = Some v.
Proof.
  induction d as [|[k' v'] d IH]; simpl; [discriminate|].
  destruct (str_eqb k k'); [auto|]. exact IH.
Qed.

Lemma dict_has_app k d e : dict_has k (d ++ e) = dict_has k d || dict_has k e.
Proof.
  unfold dict_has. destruct (dict_get k d) eqn:E.
  - rewrite (dict_get_app_present _ _ _ _ E). reflexivity.
  - rewrite (dict_get_app_absent _ _ _ E). reflexivity.
Qed.

Lemma default_timestamp_ret d w :
  exists r w1, default_timestamp (JObj d) w = (Ret (JObj r), w1) /\ w_calls w1 = w_calls w.
Proof.
  rewrite default_timestamp_obj. destruct (dict_has _ d); eauto.
Qed.

Lemma default_source_ret d src w :
  exists r, default_source (JObj d) src w = (Ret (JObj r), w).
Proof.
  rewrite default_source_obj. destruct (dict_has _ d); eauto.
Qed.

Lemma has_source_after_timestamp d tv :
  dict_has (lit "sourceSystem") (d ++ [(lit "timestamp", tv)]) = dict_has (lit "sourceSystem") d.
Proof. rewrite dict_has_app. destruct (dict_has _ d); reflexivity. Qed.

Lemma get_source_after_timestamp d tv :
  dict_get (lit "sourceSystem") (d ++ [(lit "timestamp", tv)]) = dict_get (lit "sourceSystem") d.
Proof.
  destruct (dict_get _ d) eqn:E.
  - apply dict_get_app_present. exact E.
  - rewrite (dict_get_app_absent _ _ _ E). reflexivity.
Qed.

(** A record whose [sourceSystem] is "MuleSoft" lands in a MuleSoft category. *)
Lemma mulesoft_source_classified r cat :
  dict_get (lit "sourceSystem") r = Some (JStr (lit "MuleSoft")) ->
  determine_log_type (JObj r) = Ret cat -> In cat mule_categories.
Proof.
  intros Hs. unfold determine_log_type, get_default. rewrite Hs. cbv zeta.
  cbn [json_lower]. replace (str_eqb (py_lower (lit "MuleSoft")) (lit "mulesoft")) with true
    by reflexivity.
  destruct (dict_has (lit "latency") r || dict_has (lit "responseTime") r).
  { intros H; injection H as <-; simpl; tauto. }
  destruct (dict_has (lit "error") r).
  { intros H; injection H as <-; simpl; tauto. }
  destruct (json_ge_400 _) as [[]|e]; [| |discriminate].
  { intros H; injection H as <-; simpl; tauto. }
  destruct (dict_has (lit "uptime") r || dict_has (lit "availability") r);
    intros H; injection H as <-; simpl; tauto.
Qed.

Lemma lower_empty_mule : str_eqb (py_lower []) (lit "mulesoft") = false.
Proof. reflexivity. Qed.
Lemma startswith_empty_mule : startswith [] (lit "MuleSoft") = false.
Proof. reflexivity. Qed.
Lemma contains_empty_sf : str_contains (py_lower []) (lit "salesforce") = false.
Proof. reflexivity. Qed.
Lemma sf_names_empty :
  str_eqb [] (lit "Login") || (str_eqb [] (lit "API_Usage")
  || (str_eqb [] (lit "Data_Modification") || false)) = false.
Proof. reflexivity. Qed.

(** On records with typed well-known keys the classifier follows the
    decision order of the spec. *)
Lemma determine_log_type_wf r :
  wf_record r = true -> determine_log_type (JObj r) = Ret (classify_spec r).
Proof.
  unfold wf_record, determine_log_type, classify_spec, str_field, get_default.
  destruct (dict_get (lit "sourceSystem") r) as [[| | | | s | |]|] eqn:Ess;
    try discriminate;
  destruct (dict_get (lit "eventType") r) as [[| | | | e | |]|] eqn:Eet;
    try discriminate;
  destruct (dict_get (lit "statusCode") r) as [[|b|z|f| | |]|] eqn:Esc;
    try discriminate; intros _; cbv zeta;
  cbn -[str_eqb startswith str_contains py_lower dict_has lit];
  rewrite ?lower_empty_mule, ?startswith_empty_mule, ?contains_empty_sf, ?sf_names_empty;
  cbn -[str_eqb startswith str_contains py_lower dict_has lit];
  repeat (match goal with
          | |- context [match ?b with _ => _ end] =>
              lazymatch b with
              | context [match _ with _ => _ end] => fail
              | _ => destruct b
              end
          end; cbn -[str_eqb startswith str_contains py_lower dict_has lit]);
  reflexivity.
Qed.

(** [determine_log_type] reads only the keys of [classify_keys]. *)
Lemma classify_agree d1 d2 :
  (forall k, In k classify_keys -> dict_get k d1 = dict_get k d2) ->
  determine_log_type (JObj d1) = determine_log_type (JObj d2).
Proof.
  intros H. unfold determine_log_type, get_default, dict_has.
  rewrite (H (lit "eventType")), (H (lit "sourceSystem")), (H (lit "latency")),
    (H (lit "responseTime")), (H (lit "error")), (H (lit "statusCode")),
    (H (lit "uptime")), (H (lit "availability")) by (cbn [classify_keys In]; auto 10).
  reflexivity.
Qed.

(** [sourceSystem.lower()] raises on a value that is not a string. *)
Lemma malformed_source_raises r v :
  dict_get (lit "sourceSystem") r = Some v -> json_is_string v = false ->
  determine_log_type (JObj r) = Raise AttributeError.
Proof.
  intros Hs Hv. unfold determine_log_type, get_default. rewrite Hs.
  destruct v; try discriminate; reflexivity.
Qed.

(** Off the [sourceSystem == 'mulesoft'] short cut, [eventType.startswith]
    raises on a value that is not a string. *)
Lemma malformed_event_type_raises r v :
  dict_get (lit "eventType") r = Some v -> json_is_string v = false ->
  source_is_mulesoft r = false ->
  determine_log_type (JObj r) = Raise AttributeError.
Proof.
  intros He Hv Hm. unfold source_is_mulesoft, str_field in Hm.
  unfold determine_log_type, get_default. rewrite He.
  destruct (dict_get (lit "sourceSystem") r) as [[| | | | s | |]|];
    cbn [json_lower]; try reflexivity.
  - rewrite Hm. destruct v; try discriminate; reflexivity.
  - rewrite lower_empty_mule. destruct v; try discriminate; reflexivity.
Qed.

(** On the MuleSoft path, with no latency, responseTime or error key,
    [statusCode >= 400] raises on a value that is not a number. *)
Lemma malformed_status_raises r v :
  dict_get (lit "statusCode") r = Some v -> json_is_number v = false ->
  source_typed r = true -> on_mule_path r = true ->
  dict_has (lit "latency") r = false -> dict_has (lit "responseTime") r = false ->
  dict_has (lit "error") r = false ->
  determine_log_type (JObj r) = Raise TypeError.
Proof.
  intros Hc Hv Ht Hp Hl Hr Her.
  unfold source_typed in Ht. unfold on_mule_path, source_is_mulesoft, str_field in Hp.
  unfold determine_log_type, get_default. rewrite Hl, Hr, Her, Hc. cbn [orb].
  destruct (dict_get (lit "sourceSystem") r) as [[| | | | s | |]|];
    try discriminate; cbn [json_lower].
  - destruct (str_eqb (py_lower s) (lit "mulesoft")).
    + destruct v; try discriminate; reflexivity.
    + cbn [orb] in Hp.
      destruct (dict_get (lit "eventType") r) as [[| | | | e | |]|]; try discriminate.
      cbn [json_startswith]. rewrite Hp. destruct v; try discriminate; reflexivity.
  - rewrite lower_empty_mule. cbn [orb] in Hp.
    destruct (dict_get (lit "eventType") r) as [[| | | | e | |]|]; try discriminate.
    cbn [json_startswith]. rewrite Hp. destruct v; try discriminate; reflexivity.
Qed.

Lemma default_timestamp_fill d w :
  exists w1, default_timestamp (JObj d) w = (Ret (JObj (d ++ ts_fill d w)), w1)
             /\ w_calls w1 = w_calls w.
Proof.
  rewrite default_timestamp_obj. unfold ts_fill.
  destruct (dict_has _ d); [rewrite app_nil_r|]; eauto.
Qed.

Lemma ts_fill_no_source d w : dict_has (lit "sourceSystem") (ts_fill d w) = false.
Proof. unfold ts_fill. destruct (dict_has _ d); reflexivity. Qed.

Lemma default_source_fill d tsx src w :
  dict_has (lit "sourceSystem") tsx = false ->
  default_source (JObj (d ++ tsx)) src w = (Ret (JObj (d ++ tsx ++ src_fill d src)), w).
Proof.
  intros H. rewrite default_source_obj, dict_has_app, H, orb_false_r. unfold src_fill.
  destruct (dict_has _ d); [rewrite app_nil_r | rewrite app_assoc]; reflexivity.
Qed.

Lemma mule_fill_source d w p w1 p' w2 :
  dict_get (lit "sourceSystem") d = None ->
  default_timestamp (JObj d) w = (Ret p, w1) ->
  default_source p (lit "MuleSoft") w1 = (Ret p', w2) ->
  exists r, p' = JObj r /\ dict_get (lit "sourceSystem") r = Some (JStr (lit "MuleSoft")).
Proof.
  intros Hn Ht Hs. rewrite default_timestamp_obj in Ht.
  assert (exists d1, p = JObj d1 /\ dict_get (lit "sourceSystem") d1 = None)
    as [d1 [-> Hn1]].
  { destruct (dict_has _ d); injection Ht as <- _; eexists; split; try reflexivity.
    - exact Hn.
    - rewrite get_source_after_timestamp. exact Hn. }
  rewrite default_source_obj in Hs. unfold dict_has in Hs. rewrite Hn1 in Hs.
  injection Hs as <- _. eexists. split; [reflexivity|].
  rewrite (dict_get_app_absent _ _ _ Hn1). cbn [dict_get]. rewrite str_eqb_refl. reflexivity.
Qed.

(** After [post_to_law] on [JObj r], the calls added since [w] all carry
    the serialization of [r]. *)
Ltac post_forward r lt w1 Ew :=
  let cs := fresh "cs" in let Hc := fresh "Hc" in let Hf := fresh "Hf" in
  let o := fresh "o" in let w3 := fresh "w3" in let Ep := fresh "Ep" in
  destruct (post_to_law_adds_at (JObj r) lt w1) as [cs [Hc Hf]];
  destruct (post_to_law (JObj r) lt w1) as [o w3] eqn:Ep;
  try rewrite Ep in Hc; cbn [snd] in Hc;
  exists cs; split;
  [ destruct o as [[? ?]|?]; cbn [snd]; rewrite Hc, Ew; reflexivity
  | eapply Forall_impl; [|exact Hf]; intros ? (_ & _ & ?); assumption ].

Lemma forwards_raise_nil {A} e (w w1 : world) r :
  w_calls w1 = w_calls w -> forwards (fun _ => (@Raise A e, w1)) w r.
Proof. intros Ew. exists []. cbn [snd]. rewrite Ew, app_nil_r. auto. Qed.

(** ** The claim theorems about the handlers *)

(** C4: with the workspace id or the key unset (absent or empty),
    [post_to_law] returns the configuration error (500) at once, leaving
    the world untouched: no clock reading, no signature, no POST.  No
    handler issues a POST on any request, and on every accepted record
    each handler answers with status 500; nothing else is affected. *)
Theorem missing_credential_refused :
  py_not_config WS_ID = true \/ py_not_config WS_KEY = true ->
  (forall body lt w, post_to_law body lt w = (Ret missing_config, w)) /\
  fst missing_config = 500 /\
  (forall req w,
     w_calls (snd (universalLogHandler req w)) = w_calls w /\
     w_calls (snd (salesforceLogHandler req w)) = w_calls w /\
     w_calls (snd (mulesoftLogHandler req w)) = w_calls w) /\
  (forall d w, d <> [] ->
     host_status (fst (universalLogHandler (Some (JObj d)) w)) = 500 /\
     host_status (fst (salesforceLogHandler (Some (JObj d)) w)) = 500 /\
     host_status (fst (mulesoftLogHandler (Some (JObj d)) w)) = 500).
Proof.
  intros Hm. split; [intros; apply post_to_law_missing, Hm|]. split; [reflexivity|]. split.
  - intros req w. repeat split; apply adds_nil;
      [unfold universalLogHandler | unfold salesforceLogHandler | unfold mulesoftLogHandler];
      adds_crunch ltac:(apply post_to_law_missing_adds; exact Hm).
  - intros d w Hd.
    destruct (default_timestamp_ret d w) as [r [w1 [Et _]]].
    split; [|split].
    + rewrite (universal_step d w _ _ Hd Et).
      destruct (determine_log_type (JObj r)); [rewrite post_to_law_missing by exact Hm|];
        reflexivity.
    + destruct (default_source_ret r (lit "Salesforce") w1) as [r' Es].
      rewrite (salesforce_step d w _ _ _ _ Hd Et Es).
      rewrite post_to_law_missing by exact Hm. reflexivity.
    + destruct (default_source_ret r (lit "MuleSoft") w1) as [r' Es].
      rewrite (mulesoft_step d w _ _ _ _ Hd Et Es).
      destruct (determine_log_type (JObj r')); [rewrite post_to_law_missing by exact Hm|];
        reflexivity.
Qed.

(** C6 (as corrected): the universal handler answers 400 "Invalid JSON"
    when the body does not parse and 400 "Empty or invalid JSON payload"
    when it parses to a falsy value.  Once a record is classified and
    [post_to_law] returns [(code, text)], the handler answers 200 with
    "Event logged successfully to <category>: <text>" when [code] is 200
    (the message carries the category and the response text, not the
    status code), and otherwise answers with status [code] itself. *)
Theorem universal_handler_responses :
  (forall w, universalLogHandler None w = (Ret (mkresp (lit "Invalid JSON") 400), w)) /\
  (forall v w, py_truthy v = false ->
     universalLogHandler (Some v) w =
       (Ret (mkresp (lit "Empty or invalid JSON payload") 400), w)) /\
  (forall d w p w1 c code text w2,
     d <> [] ->
     default_timestamp (JObj d) w = (Ret p, w1) ->
     determine_log_type p = Ret c ->
     post_to_law p (category_name c) w1 = (Ret (code, text), w2) ->
     universalLogHandler (Some (JObj d)) w =
       (Ret (if code =? 200
             then mkresp (lit "Event logged successfully to " ++ category_name c
                          ++ lit ": " ++ text) 200
             else mkresp (lit "Failed to log event: " ++ text) code), w2)).
Proof.
  split; [reflexivity|]. split.
  - intros v w Hv. unfold universalLogHandler. rewrite Hv. reflexivity.
  - intros d w p w1 c code text w2 Hd Ht Hc Hp.
    rewrite (universal_step d w p w1 Hd Ht), Hc. cbv beta iota. rewrite Hp. reflexivity.
Qed.

(** C8 (as corrected): on an accepted record [d] every POST a handler
    issues carries [d] itself with the absent defaults appended: the
    universal handler adds only [timestamp], the Salesforce and MuleSoft
    handlers add [timestamp] and then [sourceSystem]; no key of [d] is
    changed, dropped or reordered. *)
Theorem handlers_fill_only_defaults d w :
  d <> [] ->
  forwards (universalLogHandler (Some (JObj d))) w (d ++ ts_fill d w) /\
  forwards (salesforceLogHandler (Some (JObj d))) w
           (d ++ ts_fill d w ++ src_fill d (lit "Salesforce")) /\
  forwards (mulesoftLogHandler (Some (JObj d))) w
           (d ++ ts_fill d w ++ src_fill d (lit "MuleSoft")).
Proof.
  intros Hd. destruct (default_timestamp_fill d w) as [w1 [Et Ew]].
  split; [|split]; unfold forwards.
  - rewrite (universal_step d w _ _ Hd Et).
    destruct (determine_log_type _) as [c|e].
    + post_forward (d ++ ts_fill d w) (category_name c) w1 Ew.
    + apply (forwards_raise_nil e w w1 _ Ew).
  - pose proof (default_source_fill d (ts_fill d w) (lit "Salesforce") w1
                  (ts_fill_no_source d w)) as Es.
    rewrite (salesforce_step d w _ _ _ _ Hd Et Es).
    post_forward (d ++ ts_fill d w ++ src_fill d (lit "Salesforce")) (lit "SalesforceEvent") w1 Ew.
  - pose proof (default_source_fill d (ts_fill d w) (lit "MuleSoft") w1
                  (ts_fill_no_source d w)) as Es.
    rewrite (mulesoft_step d w _ _ _ _ Hd Et Es).
    destruct (determine_log_type _) as [c|e].
    + post_forward (d ++ ts_fill d w ++ src_fill d (lit "MuleSoft")) (category_name c) w1 Ew.
    + apply (forwards_raise_nil e w w1 _ Ew).
Qed.

(** C9: a record without [sourceSystem] sent to the MuleSoft handler gets
    [sourceSystem = "MuleSoft"] before it is classified; a category it is
    then given is one of the four MuleSoft ones, and every POST the handler
    issues is logged under such a category.  (A malformed [statusCode]
    makes the classifier raise, and then no POST is issued.) *)
Theorem mulesoft_source_defaulted d w :
  d <> [] -> dict_get (lit "sourceSystem") d = None ->
  (forall p w1 p' w2,
     default_timestamp (JObj d) w = (Ret p, w1) ->
     default_source p (lit "MuleSoft") w1 = (Ret p', w2) ->
     (exists r, p' = JObj r /\ dict_get (lit "sourceSystem") r = Some (JStr (lit "MuleSoft"))) /\
     (forall cat, determine_log_type p' = Ret cat -> In cat mule_categories)) /\
  (exists cs, w_calls (snd (mulesoftLogHandler (Some (JObj d)) w)) = w_calls w ++ cs /\
     Forall (fun c => exists cat, In cat mule_categories
                                  /\ In (lit "Log-Type", category_name cat) (pc_headers c)) cs).
Proof.
  intros Hd Hn. split.
  - intros p w1 p' w2 Ht Hs.
    destruct (mule_fill_source d w p w1 p' w2 Hn Ht Hs) as [r [-> Hr]].
    split; [eauto|]. intros cat. apply mulesoft_source_classified, Hr.
  - destruct (default_timestamp_ret d w) as [r [w1 [Et Ew]]].
    destruct (default_source_ret r (lit "MuleSoft") w1) as [r' Es].
    destruct (mule_fill_source d w _ _ _ _ Hn Et Es) as [r'' [Er Hr]].
    injection Er as <-.
    rewrite (mulesoft_step d w _ _ _ _ Hd Et Es).
    destruct (determine_log_type (JObj r')) as [c|e] eqn:Ec.
    + destruct (post_to_law_adds_at (JObj r') (category_name c) w1) as [cs [Hc Hf]].
      destruct (post_to_law (JObj r') (category_name c) w1) as [o w3] eqn:Ep.
      try rewrite Ep in Hc. cbn [snd] in Hc.
      exists cs. split.
      * destruct o as [[? ?]|?]; cbn [snd]; rewrite Hc, Ew; reflexivity.
      * eapply Forall_impl; [|exact Hf]. intros x [Hx _]. exists c. split; [|exact Hx].
        exact (mulesoft_source_classified r' c Hr Ec).
    + exists []. cbn [snd]. rewrite Ew, app_nil_r. auto.
Qed.

(** C10: a body that parses to a falsy value ([{}], [[]], [0], [false],
    [null], ...) is answered 400 "Empty or invalid JSON payload" by each
    handler at once: the world is unchanged (no clock reading, no
    classification, no POST). *)
Theorem falsy_payload_rejected :
  Forall (fun v => py_truthy v = false) [JObj []; JArr []; JInt 0; JBool false; JNull] /\
  (forall v w, py_truthy v = false ->
     universalLogHandler (Some v) w = (Ret (mkresp (lit "Empty or invalid JSON payload") 400), w) /\
     salesforceLogHandler (Some v) w = (Ret (mkresp (lit "Empty or invalid JSON payload") 400), w) /\
     mulesoftLogHandler (Some v) w = (Ret (mkresp (lit "Empty or invalid JSON payload") 400), w)).
Proof.
  split; [repeat constructor|].
  intros v w Hv. unfold universalLogHandler, salesforceLogHandler, mulesoftLogHandler.
  rewrite Hv. repeat split.
Qed.

(** Adding the [timestamp] default does not change the classification. *)
Lemma classify_after_timestamp d w :
  determine_log_type (JObj (d ++ ts_fill d w)) = determine_log_type (JObj d).
Proof.
  apply classify_agree. intros k Hk.
  destruct (dict_get k d) eqn:E.
  - apply dict_get_app_present. exact E.
  - rewrite (dict_get_app_absent _ _ _ E). unfold ts_fill.
    destruct (dict_has _ d); [reflexivity|].
    cbn [classify_keys In] in Hk.
    repeat (destruct Hk as [<- | Hk]; [reflexivity|]). destruct Hk.
Qed.

(** A record on which [determine_log_type] raises is answered 500 by the
    universal handler, and by the MuleSoft handler when it already has a
    [sourceSystem] (which that handler then leaves as it is). *)
Lemma classify_raise_answered_500 d w :
  d <> [] -> (exists e, determine_log_type (JObj d) = Raise e) ->
  host_status (fst (universalLogHandler (Some (JObj d)) w)) = 500 /\
  (dict_has (lit "sourceSystem") d = true ->
   host_status (fst (mulesoftLogHandler (Some (JObj d)) w)) = 500).
Proof.
  intros Hd [e He].
  destruct (default_timestamp_fill d w) as [w1 [Et _]].
  split.
  - rewrite (universal_step d w _ _ Hd Et), classify_after_timestamp, He. reflexivity.
  - intros Hs.
    pose proof (default_source_fill d (ts_fill d w) (lit "MuleSoft") w1
                  (ts_fill_no_source d w)) as Es.
    rewrite (mulesoft_step d w _ _ _ _ Hd Et Es).
    unfold src_fill. rewrite Hs, app_nil_r, classify_after_timestamp, He. reflexivity.
Qed.

(** ** The claim theorems about the classifier *)

(** C2 (as corrected): on every record whose [sourceSystem] and
    [eventType] are strings when present and whose [statusCode] is a
    number (or a bool) when present, [determine_log_type] returns the
    category the first-match decision order of the spec gives.  A record
    with a non-string [sourceSystem], with a non-string [eventType] when
    [sourceSystem] is not "mulesoft", or with a non-numeric [statusCode]
    reached on the MuleSoft path (no latency, responseTime or error key)
    makes it raise instead. *)
Theorem classify_decision_order r :
  (wf_record r = true -> determine_log_type (JObj r) = Ret (classify_spec r)) /\
  (forall v, dict_get (lit "sourceSystem") r = Some v -> json_is_string v = false ->
     determine_log_type (JObj r) = Raise AttributeError) /\
  (forall v, dict_get (lit "eventType") r = Some v -> json_is_string v = false ->
     source_is_mulesoft r = false ->
     determine_log_type (JObj r) = Raise AttributeError) /\
  (forall v, dict_get (lit "statusCode") r = Some v -> json_is_number v = false ->
     source_typed r = true -> on_mule_path r = true ->
     dict_has (lit "latency") r = false -> dict_has (lit "responseTime") r = false ->
     dict_has (lit "error") r = false ->
     determine_log_type (JObj r) = Raise TypeError).
Proof.
  split; [apply determine_log_type_wf|].
  split; [intros v; apply malformed_source_raises|].
  split; [intros v; apply malformed_event_type_raises|].
  intros v; apply malformed_status_raises.
Qed.

(** C5 (as corrected): [determine_log_type] returns one of the six
    categories, without raising, on every record whose well-known keys
    have their documented types.  Malformed fields are not tolerated: a
    non-string [sourceSystem], a non-string [eventType] when
    [sourceSystem] is not "mulesoft", or a non-numeric [statusCode] on the
    MuleSoft path without latency, responseTime or error makes it raise;
    the universal handler then answers 500, and so does the MuleSoft
    handler when the record carries its own [sourceSystem]. *)
Theorem classify_total_on_typed r :
  (wf_record r = true -> exists c, determine_log_type (JObj r) = Ret c) /\
  (forall v, dict_get (lit "sourceSystem") r = Some v -> json_is_string v = false ->
     determine_log_type (JObj r) = Raise AttributeError) /\
  (forall v, dict_get (lit "eventType") r = Some v -> json_is_string v = false ->
     source_is_mulesoft r = false ->
     determine_log_type (JObj r) = Raise AttributeError) /\
  (forall v, dict_get (lit "statusCode") r = Some v -> json_is_number v = false ->
     source_typed r = true -> on_mule_path r = true ->
     dict_has (lit "latency") r = false -> dict_has (lit "responseTime") r = false ->
     dict_has (lit "error") r = false ->
     determine_log_type (JObj r) = Raise TypeError) /\
  (forall w, r <> [] -> (exists e, determine_log_type (JObj r) = Raise e) ->
     host_status (fst (universalLogHandler (Some (JObj r)) w)) = 500 /\
     (dict_has (lit "sourceSystem") r = true ->
      host_status (fst (mulesoftLogHandler (Some (JObj r)) w)) = 500)).
Proof.
  split; [intros H; exists (classify_spec r); apply determine_log_type_wf, H|].
  split; [intros v; apply malformed_source_raises|].
  split; [intros v; apply malformed_event_type_raises|].
  split; [intros v; apply malformed_status_raises|].
  intros w; apply classify_raise_answered_500.
Qed.

(** ** Further properties of the function app *)

Ltac no_post Ec :=
  left; split; [first [exact Ec | reflexivity] | cbn; discriminate].

Lemma post_to_law_200 body lt w t w2 :
  post_to_law body lt w = (Ret (200, t), w2) ->
  exists c t', w_calls w2 = w_calls w ++ [c]
               /\ transport (length (w_calls w)) c = Response 200 t'.
Proof.
  unfold post_to_law, ret, raise, missing_config.
  destruct (py_not_config WS_ID || py_not_config WS_KEY); [intros H; inversion H|].
  destruct WS_ID as [ws_id|]; [|intros H; inversion H].
  destruct WS_KEY as [ws_key|]; [|intros H; inversion H].
  unfold bind at 1, utcnow. cbn [w_ticks w_calls].
  destruct (b64decode ws_key); [|intros H; inversion H].
  destruct (utf8_encode _); [|intros H; inversion H].
  unfold send, bind, requests_post. cbn [w_calls].
  destruct (transport _ _) as [st t0|e] eqn:Et; intros H; inversion H; subst.
  eexists; eexists; split; [reflexivity | exact Et].
Qed.

Lemma universal_via_post req : via_post (universalLogHandler req).
Proof.
  intros w. destruct req as [v|]; [|no_post I].
  unfold universalLogHandler. destruct (negb (py_truthy v)); [no_post I|].
  unfold bind, lift, ret.
  pose proof (default_timestamp_calls v w) as Ec.
  destruct (default_timestamp v w) as [[p|e] w1]; cbn [snd] in Ec; cbv beta iota;
    [|no_post Ec].
  destruct (determine_log_type p) as [c|e]; cbv beta iota; [|no_post Ec].
  right. exists p, (category_name c), w1. split; [exact Ec|].
  destruct (post_to_law p (category_name c) w1) as [[[code text]|e] w2];
    [destruct (code =? 200) eqn:E|]; (split; [reflexivity|]); cbn; intros H; try discriminate.
  - apply Z.eqb_eq in E. subst. eauto.
  - apply Z.eqb_neq in E. contradiction.
Qed.

Lemma mulesoft_via_post req : via_post (mulesoftLogHandler req).
Proof.
  intros w. destruct req as [v|]; [|no_post I].
  unfold mulesoftLogHandler. destruct (negb (py_truthy v)); [no_post I|].
  unfold bind, lift, ret.
  pose proof (default_timestamp_calls v w) as Ec.
  destruct (default_timestamp v w) as [[p|e] w1]; cbn [snd] in Ec; cbv beta iota;
    [|no_post Ec].
  pose proof (default_source_world p (lit "MuleSoft") w1) as Es.
  destruct (default_source p (lit "MuleSoft") w1) as [[p'|e] w2]; cbn [snd] in Es; subst w2;
    cbv beta iota; [|no_post Ec].
  destruct (determine_log_type p') as [c|e]; cbv beta iota; [|no_post Ec].
  right. exists p', (category_name c), w1. split; [exact Ec|].
  destruct (post_to_law p' (category_name c) w1) as [[[code text]|e] w2];
    [destruct (code =? 200) eqn:E|]; (split; [reflexivity|]); cbn; intros H; try discriminate.
  - apply Z.eqb_eq in E. subst. eauto.
  - apply Z.eqb_neq in E. contradiction.
Qed.

Lemma salesforce_via_post req : via_post (salesforceLogHandler req).
Proof.
  intros w. destruct req as [v|]; [|no_post I].
  unfold salesforceLogHandler. destruct (negb (py_truthy v)); [no_post I|].
  unfold bind, lift, ret.
  pose proof (default_timestamp_calls v w) as Ec.
  destruct (default_timestamp v w) as [[p|e] w1]; cbn [snd] in Ec; cbv beta iota;
    [|no_post Ec].
  pose proof (default_source_world p (lit "Salesforce") w1) as Es.
  destruct (default_source p (lit "Salesforce") w1) as [[p'|e] w2]; cbn [snd] in Es; subst w2;
    cbv beta iota; [|no_post Ec].
  right. exists p', (lit "SalesforceEvent"), w1. split; [exact Ec|].
  destruct (post_to_law p' (lit "SalesforceEvent") w1) as [[[code text]|e] w2];
    [destruct (code =? 200) eqn:E|]; (split; [reflexivity|]); cbn; intros H; try discriminate.
  - apply Z.eqb_eq in E. subst. eauto.
  - apply Z.eqb_neq in E. contradiction.
Qed.

Lemma via_post_at_most_one m w :
  via_post m ->
  exists cs, w_calls (snd (m w)) = w_calls w ++ cs
             /\ (length cs <= 1)%nat /\ Forall (fun c => pc_timeout c = 10) cs.
Proof.
  intros Hm. destruct (Hm w) as [[Hc _]|(body & lt & w1 & Ew & Hc & _)].
  - exists []. rewrite Hc, app_nil_r. auto.
  - destruct (post_to_law_calls body lt w1) as (cs & Hcs & Hl & Ht).
    exists cs. rewrite Hc, Hcs, Ew. auto.
Qed.

Lemma via_post_200 m w :
  via_post m -> host_status (fst (m w)) = 200 ->
  exists c t, w_calls (snd (m w)) = w_calls w ++ [c]
              /\ transport (length (w_calls w)) c = Response 200 t.
Proof.
  intros Hm H. destruct (Hm w) as [[_ Hs]|(body & lt & w1 & Ew & Hc & H200)];
    [contradiction|].
  destruct (H200 H) as [t Ht]. rewrite Hc.
  destruct (post_to_law body lt w1) as [o w2] eqn:Ep. cbn [fst] in Ht. subst o.
  destruct (post_to_law_200 _ _ _ _ _ Ep) as (c & t' & Hw & Htr).
  exists c, t'. cbn [snd]. rewrite Hw, Ew. split; [reflexivity|]. rewrite <- Ew. exact Htr.
Qed.

Lemma post_to_law_badkey body lt w ws_id ws_key :
  WS_ID = Some ws_id -> WS_KEY = Some ws_key -> ws_id <> [] -> ws_key <> [] ->
  b64decode ws_key = None ->
  post_to_law body lt w = (Raise BinasciiError, mkworld (S (w_ticks w)) (w_calls w)).
Proof.
  intros Hid Hkey Hid0 Hkey0 Hdk. unfold post_to_law. rewrite Hid, Hkey.
  destruct ws_id as [|a ws_id]; [congruence|].
  destruct ws_key as [|b ws_key]; [congruence|].
  cbn [py_not_config orb]. unfold bind at 1, utcnow. cbn [w_ticks w_calls].
  rewrite Hdk. reflexivity.
Qed.

Lemma post_to_law_badkey_adds P body lt ws_id ws_key :
  WS_ID = Some ws_id -> WS_KEY = Some ws_key -> ws_id <> [] -> ws_key <> [] ->
  b64decode ws_key = None -> adds_calls P (post_to_law body lt).
Proof.
  intros Hid Hkey Hid0 Hkey0 Hdk w.
  rewrite (post_to_law_badkey body lt w ws_id ws_key Hid Hkey Hid0 Hkey0 Hdk).
  exists []. rewrite app_nil_r. auto.
Qed.

Lemma default_timestamp_present v w :
  py_contains v (lit "timestamp") = Ret true -> default_timestamp v w = (Ret v, w).
Proof. intros H. unfold default_timestamp, bind, lift. rewrite H. reflexivity. Qed.

Lemma default_source_present v src w :
  py_contains v (lit "sourceSystem") = Ret true -> default_source v src w = (Ret v, w).
Proof. intros H. unfold default_source, bind, lift. rewrite H. reflexivity. Qed.

(** X1: every handler issues at most one POST per request, with the
    10 second timeout. *)
Theorem handlers_at_most_one_post req w :
  (exists cs, w_calls (snd (universalLogHandler req w)) = w_calls w ++ cs
              /\ (length cs <= 1)%nat /\ Forall (fun c => pc_timeout c = 10) cs) /\
  (exists cs, w_calls (snd (salesforceLogHandler req w)) = w_calls w ++ cs
              /\ (length cs <= 1)%nat /\ Forall (fun c => pc_timeout c = 10) cs) /\
  (exists cs, w_calls (snd (mulesoftLogHandler req w)) = w_calls w ++ cs
              /\ (length cs <= 1)%nat /\ Forall (fun c => pc_timeout c = 10) cs).
Proof.
  split; [|split]; apply via_post_at_most_one;
    [apply universal_via_post | apply salesforce_via_post | apply mulesoft_via_post].
Qed.

(** X2: a handler answers 200 only when it issued exactly one POST and the
    Log Analytics endpoint answered that POST with status 200. *)
Theorem handlers_200_only_on_downstream_200 req w :
  (host_status (fst (universalLogHandler req w)) = 200 ->
   exists c t, w_calls (snd (universalLogHandler req w)) = w_calls w ++ [c]
               /\ transport (length (w_calls w)) c = Response 200 t) /\
  (host_status (fst (salesforceLogHandler req w)) = 200 ->
   exists c t, w_calls (snd (salesforceLogHandler req w)) = w_calls w ++ [c]
               /\ transport (length (w_calls w)) c = Response 200 t) /\
  (host_status (fst (mulesoftLogHandler req w)) = 200 ->
   exists c t, w_calls (snd (mulesoftLogHandler req w)) = w_calls w ++ [c]
               /\ transport (length (w_calls w)) c = Response 200 t).
Proof.
  split; [|split]; apply via_post_200;
    [apply universal_via_post | apply salesforce_via_post | apply mulesoft_via_post].
Qed.

(** X3: with both settings present but a key that is not valid base64,
    [post_to_law] raises (it reads the clock, then fails in
    [b64decode]) and no handler issues a POST; every accepted record is
    answered with status 500. *)
Theorem undecodable_key_fails ws_id ws_key :
  WS_ID = Some ws_id -> WS_KEY = Some ws_key -> ws_id <> [] -> ws_key <> [] ->
  b64decode ws_key = None ->
  (forall body lt w,
     post_to_law body lt w = (Raise BinasciiError, mkworld (S (w_ticks w)) (w_calls w))) /\
  (forall req w,
     w_calls (snd (universalLogHandler req w)) = w_calls w /\
     w_calls (snd (salesforceLogHandler req w)) = w_calls w /\
     w_calls (snd (mulesoftLogHandler req w)) = w_calls w) /\
  (forall d w, d <> [] ->
     host_status (fst (universalLogHandler (Some (JObj d)) w)) = 500 /\
     host_status (fst (salesforceLogHandler (Some (JObj d)) w)) = 500 /\
     host_status (fst (mulesoftLogHandler (Some (JObj d)) w)) = 500).
Proof.
  intros Hid Hkey Hid0 Hkey0 Hdk.
  split; [intros; apply (post_to_law_badkey _ _ _ ws_id ws_key); assumption|]. split.
  - intros req w. repeat split; apply adds_nil;
      [unfold universalLogHandler | unfold salesforceLogHandler | unfold mulesoftLogHandler];
      adds_crunch ltac:(apply (post_to_law_badkey_adds _ _ _ ws_id ws_key); assumption).
  - intros d w Hd.
    destruct (default_timestamp_ret d w) as [r [w1 [Et _]]].
    split; [|split].
    + rewrite (universal_step d w _ _ Hd Et).
      destruct (determine_log_type (JObj r));
        [rewrite (post_to_law_badkey _ _ _ ws_id ws_key) by assumption|]; reflexivity.
    + destruct (default_source_ret r (lit "Salesforce") w1) as [r' Es].
      rewrite (salesforce_step d w _ _ _ _ Hd Et Es).
      rewrite (post_to_law_badkey _ _ _ ws_id ws_key) by assumption. reflexivity.
    + destruct (default_source_ret r (lit "MuleSoft") w1) as [r' Es].
      rewrite (mulesoft_step d w _ _ _ _ Hd Et Es).
      destruct (determine_log_type (JObj r'));
        [rewrite (post_to_law_badkey _ _ _ ws_id ws_key) by assumption|]; reflexivity.
Qed.

(** X4: the clock is read twice.  For a record without [timestamp], the
    Salesforce handler stamps it with reading n, while the [x-ms-date]
    header of its POST (the signed date) comes from reading n+1. *)
Theorem salesforce_clock_read_twice d w ws_id ws_key dk :
  WS_ID = Some ws_id -> WS_KEY = Some ws_key -> ws_id <> [] -> ws_key <> [] ->
  b64decode ws_key = Some dk -> d <> [] -> dict_has (lit "timestamp") d = false ->
  exists c,
    w_calls (snd (salesforceLogHandler (Some (JObj d)) w)) = w_calls w ++ [c] /\
    pc_data c = json_dumps float_repr
      (JObj (d ++ [(lit "timestamp", JStr (isoformat (utc_clock (w_ticks w))))]
               ++ src_fill d (lit "Salesforce"))) /\
    In (lit "x-ms-date", strftime ts_format (utc_clock (S (w_ticks w)))) (pc_headers c).
Proof.
  intros Hid Hkey Hid0 Hkey0 Hdk Hd Hts.
  assert (Et : default_timestamp (JObj d) w =
                 (Ret (JObj (d ++ [(lit "timestamp", JStr (isoformat (utc_clock (w_ticks w))))])),
                  mkworld (S (w_ticks w)) (w_calls w)))
    by (rewrite default_timestamp_obj, Hts; reflexivity).
  pose proof (default_source_fill d
                [(lit "timestamp", JStr (isoformat (utc_clock (w_ticks w))))]
                (lit "Salesforce") (mkworld (S (w_ticks w)) (w_calls w)) eq_refl) as Es.
  rewrite (salesforce_step d w _ _ _ _ Hd Et Es).
  rewrite (post_to_law_configured _ _ _ ws_id ws_key dk Hid Hkey Hid0 Hkey0 Hdk).
  cbv zeta. cbn [w_ticks w_calls].
  destruct (transport _ _); eexists; (split; [reflexivity|]);
    (split; [reflexivity | do 3 right; left; reflexivity]).
Qed.

(** X5: the Salesforce handler does not classify: every POST it issues is
    logged under Log-Type "SalesforceEvent", whatever the record holds. *)
Theorem salesforce_handler_fixed_log_type req :
  adds_calls (fun c => In (lit "Log-Type", lit "SalesforceEvent") (pc_headers c))
             (salesforceLogHandler req).
Proof.
  unfold salesforceLogHandler.
  adds_crunch ltac:(eapply adds_mono; [|apply post_to_law_adds]; intros ? [? _]; assumption).
Qed.

(** X6: when [in] already finds both keys in a truthy payload (for a
    JSON string [in] is a substring test, for an array a membership
    test), the Salesforce handler adds nothing and hands the payload as
    it is, object or not, to [post_to_law]. *)
Theorem salesforce_forwards_payload_as_is v w :
  py_truthy v = true ->
  py_contains v (lit "timestamp") = Ret true ->
  py_contains v (lit "sourceSystem") = Ret true ->
  salesforceLogHandler (Some v) w =
    match post_to_law v (lit "SalesforceEvent") w with
    | (Ret (code, text), w3) =>
        (Ret (if code =? 200
              then mkresp (lit "Salesforce event logged successfully: " ++ text) 200
              else mkresp (lit "Failed to log Salesforce event: " ++ text) code), w3)
    | (Raise e, w3) => (Raise e, w3)
    end.
Proof.
  intros Hv Ht Hs. unfold salesforceLogHandler. rewrite Hv. cbn [negb].
  unfold bind at 1. rewrite (default_timestamp_present v w Ht).
  unfold bind at 1. rewrite (default_source_present v (lit "Salesforce") w Hs).
  unfold bind. destruct (post_to_law v _ w) as [[[code text]|e] w3];
    [destruct (code =? 200)|]; reflexivity.
Qed.

(** X7: the universal and MuleSoft handlers POST only JSON objects, and
    each POST's Log-Type is the category [determine_log_type] gives the
    very record serialized in its body. *)
Theorem classified_handlers_log_type_of_body req :
  adds_calls (fun c => exists r cat, pc_data c = json_dumps float_repr (JObj r)
                                     /\ determine_log_type (JObj r) = Ret cat
                                     /\ In (lit "Log-Type", category_name cat) (pc_headers c))
             (universalLogHandler req) /\
  adds_calls (fun c => exists r cat, pc_data c = json_dumps float_repr (JObj r)
                                     /\ determine_log_type (JObj r) = Ret cat
                                     /\ In (lit "Log-Type", category_name cat) (pc_headers c))
             (mulesoftLogHandler req).
Proof.
  split; [unfold universalLogHandler | unfold mulesoftLogHandler];
    (destruct req as [v|]; [|apply adds_ret]);
    (destruct (negb _); [apply adds_ret|]);
    (apply adds_bind; [apply default_timestamp_adds|intros p]);
    [| apply adds_bind; [apply default_source_adds | clear p; intros p]];
    apply adds_bind_lift; intros cat Hcat;
    (apply adds_bind; [| intros [code text]; destruct (code =? 200); apply adds_ret]);
    (eapply adds_mono; [|apply post_to_law_adds]);
    intros c (Hl & _ & Hd);
    (destruct p as [| | | | | | r]; try (cbn in Hcat; discriminate));
    exists r, cat; auto.
Qed.

(** X8: [determine_log_type] reads only the keys eventType, sourceSystem,
    latency, responseTime, error, statusCode, uptime and availability:
    two records that agree on those keys get the same outcome. *)
Theorem determine_log_type_local d1 d2 :
  (forall k, In k classify_keys -> dict_get k d1 = dict_get k d2) ->
  determine_log_type (JObj d1) = determine_log_type (JObj d2).
Proof.
  intros H. unfold determine_log_type, get_default, dict_has.
  rewrite (H (lit "eventType")), (H (lit "sourceSystem")), (H (lit "latency")),
    (H (lit "responseTime")), (H (lit "error")), (H (lit "statusCode")),
    (H (lit "uptime")), (H (lit "availability")) by (cbn [classify_keys In]; auto 10).
  reflexivity.
Qed.

(** X9: a record with neither sourceSystem nor eventType is a
    GeneralEvent, whatever other keys (latency, error, statusCode, ...) it
    carries. *)
Theorem untagged_record_general d :
  dict_get (lit "sourceSystem") d = None -> dict_get (lit "eventType") d = None ->
  determine_log_type (JObj d) = Ret GeneralEvent.
Proof.
  intros Hs He. unfold determine_log_type, get_default. rewrite Hs, He. vm_compute.
  reflexivity.
Qed.

(** ** The simulators' events through the classifier and the handlers *)

Lemma tagged_record_log_type d cat w :
  d <> [] -> dict_has (lit "timestamp") d = true -> dict_has (lit "sourceSystem") d = true ->
  determine_log_type (JObj d) = Ret cat ->
  (exists cs, w_calls (snd (mulesoftLogHandler (Some (JObj d)) w)) = w_calls w ++ cs
              /\ Forall (fun c => In (lit "Log-Type", category_name cat) (pc_headers c)) cs) /\
  (exists cs, w_calls (snd (universalLogHandler (Some (JObj d)) w)) = w_calls w ++ cs
              /\ Forall (fun c => In (lit "Log-Type", category_name cat) (pc_headers c)) cs).
Proof.
  intros Hd Hts Hss Hc.
  assert (Et : default_timestamp (JObj d) w = (Ret (JObj d), w))
    by (rewrite default_timestamp_obj, Hts; reflexivity).
  assert (Es : default_source (JObj d) (lit "MuleSoft") w = (Ret (JObj d), w))
    by (rewrite default_source_obj, Hss; reflexivity).
  split; [rewrite (mulesoft_step d w _ _ _ _ Hd Et Es) | rewrite (universal_step d w _ _ Hd Et)];
    rewrite Hc; cbv beta iota;
    destruct (post_to_law_adds_at (JObj d) (category_name cat) w) as [cs [Hcs Hf]];
    destruct (post_to_law (JObj d) (category_name cat) w) as [o w3] eqn:Ep;
    try rewrite Ep in Hcs; cbn [snd] in Hcs;
    exists cs; (split; [destruct o as [[? ?]|?]; cbn [snd]; exact Hcs|]);
    (eapply Forall_impl; [|exact Hf]); intros ? [? _]; assumption.
Qed.

(** X10: every MuleSoft "error" event of api_simulator.py carries a
    responseTime, so [determine_log_type] files it as
    MuleSoftPerformance, never MuleSoftError, whatever its statusCode;
    the MuleSoft and universal handlers log it under that Log-Type. *)
Theorem mulesoft_error_events_logged_as_performance
    now eid api env app status error_type response_time retries a b c d w :
  determine_log_type (JObj (generate_mulesoft_error_event now eid api env app status
                              error_type response_time retries a b c d))
    = Ret MuleSoftPerformance /\
  (exists cs,
     w_calls (snd (mulesoftLogHandler (Some (JObj (generate_mulesoft_error_event now eid api env
        app status error_type response_time retries a b c d))) w)) = w_calls w ++ cs
     /\ Forall (fun c => In (lit "Log-Type", lit "MuleSoftPerformance") (pc_headers c)) cs) /\
  (exists cs,
     w_calls (snd (universalLogHandler (Some (JObj (generate_mulesoft_error_event now eid api env
        app status error_type response_time retries a b c d))) w)) = w_calls w ++ cs
     /\ Forall (fun c => In (lit "Log-Type", lit "MuleSoftPerformance") (pc_headers c)) cs).
Proof.
  assert (Hc : determine_log_type (JObj (generate_mulesoft_error_event now eid api env app status
                 error_type response_time retries a b c d)) = Ret MuleSoftPerformance)
    by (vm_compute; reflexivity).
  split; [exact Hc|].
  apply (tagged_record_log_type _ MuleSoftPerformance w); [discriminate | reflexivity | reflexivity | exact Hc].
Qed.

(** X11: the three Salesforce generators of api_simulator.py produce
    events that [determine_log_type] files as SalesforceEvent. *)
Theorem api_simulator_salesforce_categories :
  (forall now eid user success lt a b c d country browser platform session reason,
     determine_log_type (JObj (generate_sf_login_event now eid user success lt a b c d
                                 country browser platform session reason))
     = Ret SalesforceEvent) /\
  (forall now eid user endpoint method status rt rg ro client a b c d,
     determine_log_type (JObj (generate_sf_api_event now eid user endpoint method status rt rg ro
                                 client a b c d))
     = Ret SalesforceEvent) /\
  (forall now eid user sobject action record_id fields old_b new_b,
     determine_log_type (JObj (generate_sf_data_event now eid user sobject action record_id
                                 fields old_b new_b))
     = Ret SalesforceEvent).
Proof. repeat split; intros; vm_compute; reflexivity. Qed.

(** X12: the performance and uptime generators of api_simulator.py
    produce events filed as MuleSoftPerformance and MuleSoftUptime. *)
Theorem api_simulator_mulesoft_categories :
  (forall now eid api env app base ep eo throughput memory cpu status,
     determine_log_type (JObj (generate_mulesoft_performance_event now eid api env app base ep eo
                                 throughput memory cpu status))
     = Ret MuleSoftPerformance) /\
  (forall now eid api env app up uo total ok failed avg,
     determine_log_type (JObj (generate_mulesoft_uptime_event now eid api env app up uo
                                 total ok failed avg))
     = Ret MuleSoftUptime).
Proof. repeat split; intros; vm_compute; reflexivity. Qed.

(** X13: the events of salesforce_simulator.py carry no sourceSystem;
    [determine_log_type] still files all three as SalesforceEvent, from
    their eventType alone. *)
Theorem salesforce_simulator_event_categories :
  (forall now eid user success lt a b c d country browser platform session reason,
     determine_log_type (JObj (generate_login_event now eid user success lt a b c d
                                 country browser platform session reason))
     = Ret SalesforceEvent) /\
  (forall now eid user endpoint method status rt rg ro client a b c d,
     determine_log_type (JObj (generate_api_event now eid user endpoint method status rt rg ro
                                 client a b c d))
     = Ret SalesforceEvent) /\
  (forall now eid user sobject action record_id fields old_b new_b,
     determine_log_type (JObj (generate_data_event now eid user sobject action record_id
                                 fields old_b new_b))
     = Ret SalesforceEvent).
Proof. repeat split; intros; vm_compute; reflexivity. Qed.
End App.

(** ** Instances on the concrete runtime *)

(** C1, at the concrete runtime: the key decodes, and the string the
    code signs is the spec's string-to-sign. *)
Lemma post_to_law_signature_witness :
  demo_b64decode (lit "a2V5") = Some [1; 2] /\
  string_to_hash (json_dumps demo_float JNull) (strftime ts_format (demo_clock 0))
  = string_to_sign_spec (json_dumps demo_float JNull) (strftime ts_format (demo_clock 0)).
Proof.
  split; [reflexivity|].
  destruct (post_to_law_signature demo_float demo_b64decode demo_b64encode demo_hmac
              demo_clock demo_transport demo_ws_id demo_ws_key JNull (lit "GeneralEvent")
              demo_world (lit "ws") (lit "a2V5") [1; 2] eq_refl eq_refl
              ltac:(discriminate) ltac:(discriminate) eq_refl
              ltac:(intros; apply ascii_b_ok; reflexivity)) as [_ [H _]].
  exact H.
Defined.

(** C3, at the concrete runtime: the signed timestamp is the RFC 1123 date. *)
Lemma post_to_law_request_shape_witness :
  1000 <= dt_year (demo_clock 0) /\
  strftime ts_format (demo_clock 0) = rfc1123_date (demo_clock 0).
Proof.
  split; [cbn; lia|].
  destruct (post_to_law_request_shape demo_float demo_b64decode demo_b64encode demo_hmac
              demo_clock demo_transport demo_ws_id demo_ws_key JNull (lit "GeneralEvent")
              demo_world (lit "ws") (lit "a2V5") [1; 2] eq_refl eq_refl
              ltac:(discriminate) ltac:(discriminate) eq_refl ltac:(cbn; lia)) as [H _].
  exact H.
Defined.

(** C4, with [WS_ID] unset. *)
Lemma missing_credential_refused_witness :
  post_to_law demo_float demo_b64decode demo_b64encode demo_hmac demo_clock demo_transport
    None demo_ws_key JNull (lit "GeneralEvent") demo_world
  = (Ret missing_config, demo_world).
Proof.
  destruct (missing_credential_refused demo_float demo_b64decode demo_b64encode demo_hmac
              demo_clock demo_transport None demo_ws_key (or_introl eq_refl)) as [H _].
  apply H.
Defined.

(** C6, on the record [{"eventType": "x"}] answered 200 downstream. *)
Lemma universal_handler_responses_witness :
  fst (universalLogHandler demo_float demo_b64decode demo_b64encode demo_hmac demo_clock
         demo_transport demo_ws_id demo_ws_key
         (Some (JObj [(lit "eventType", JStr (lit "x"))])) demo_world)
  = Ret (mkresp (lit "Event logged successfully to GeneralEvent: ") 200).
Proof.
  destruct (universal_handler_responses demo_float demo_b64decode demo_b64encode demo_hmac
              demo_clock demo_transport demo_ws_id demo_ws_key) as [_ [_ H]].
  rewrite (H [(lit "eventType", JStr (lit "x"))] demo_world _ _ _ _ _ _
             ltac:(discriminate) eq_refl eq_refl eq_refl).
  reflexivity.
Defined.

(** C8, on the record [{"eventType": "x"}]. *)
Lemma handlers_fill_only_defaults_witness :
  forwards demo_float
    (universalLogHandler demo_float demo_b64decode demo_b64encode demo_hmac demo_clock
       demo_transport demo_ws_id demo_ws_key (Some (JObj [(lit "eventType", JStr (lit "x"))])))
    demo_world
    ([(lit "eventType", JStr (lit "x"))] ++ ts_fill demo_clock [(lit "eventType", JStr (lit "x"))] demo_world).
Proof.
  destruct (handlers_fill_only_defaults demo_float demo_b64decode demo_b64encode demo_hmac
              demo_clock demo_transport demo_ws_id demo_ws_key
              [(lit "eventType", JStr (lit "x"))] demo_world ltac:(discriminate)) as [H _].
  exact H.
Defined.

(** C9, on the record [{"eventType": "x"}]. *)
Lemma mulesoft_source_defaulted_witness :
  dict_get (lit "sourceSystem") [(lit "eventType", JStr (lit "x"))] = None /\
  exists cs,
    w_calls (snd (mulesoftLogHandler demo_float demo_b64decode demo_b64encode demo_hmac
                    demo_clock demo_transport demo_ws_id demo_ws_key
                    (Some (JObj [(lit "eventType", JStr (lit "x"))])) demo_world))
    = w_calls demo_world ++ cs /\
    Forall (fun c => exists cat, In cat mule_categories
                                 /\ In (lit "Log-Type", category_name cat) (pc_headers c)) cs.
Proof.
  split; [reflexivity|].
  destruct (mulesoft_source_defaulted demo_float demo_b64decode demo_b64encode demo_hmac
              demo_clock demo_transport demo_ws_id demo_ws_key
              [(lit "eventType", JStr (lit "x"))] demo_world ltac:(discriminate) eq_refl)
    as [_ H].
  exact H.
Defined.

(** C10, on the empty object. *)
Lemma falsy_payload_rejected_witness :
  py_truthy (JObj []) = false /\
  universalLogHandler demo_float demo_b64decode demo_b64encode demo_hmac demo_clock
    demo_transport demo_ws_id demo_ws_key (Some (JObj [])) demo_world
  = (Ret (mkresp (lit "Empty or invalid JSON payload") 400), demo_world).
Proof.
  split; [reflexivity|].
  destruct (falsy_payload_rejected demo_float demo_b64decode demo_b64encode demo_hmac
              demo_clock demo_transport demo_ws_id demo_ws_key) as [_ H].
  exact (proj1 (H (JObj []) demo_world eq_refl)).
Defined.

(** C2, on a typed MuleSoft record with a latency, on [{"sourceSystem": null}],
    on [{"eventType": 42}] and on
    [{"sourceSystem": "mulesoft", "statusCode": "500"}]. *)
Lemma classify_decision_order_witness :
  determine_log_type (JObj [(lit "sourceSystem", JStr (lit "MuleSoft")); (lit "latency", JInt 5)])
  = Ret (classify_spec [(lit "sourceSystem", JStr (lit "MuleSoft")); (lit "latency", JInt 5)]) /\
  determine_log_type (JObj [(lit "sourceSystem", JNull)]) = Raise AttributeError /\
  determine_log_type (JObj [(lit "eventType", JInt 42)]) = Raise AttributeError /\
  determine_log_type (JObj [(lit "sourceSystem", JStr (lit "mulesoft"));
                            (lit "statusCode", JStr (lit "500"))]) = Raise TypeError.
Proof.
  split; [apply (proj1 (classify_decision_order _)); reflexivity|].
  split; [apply (proj1 (proj2 (classify_decision_order _)) JNull); reflexivity|].
  split; [apply (proj1 (proj2 (proj2 (classify_decision_order _))) (JInt 42)); reflexivity|].
  apply (proj2 (proj2 (proj2 (classify_decision_order _))) (JStr (lit "500"))); reflexivity.
Defined.

(** C5, on a typed Salesforce record, on the same three malformed records,
    and on [{"sourceSystem": null}] sent to the universal and MuleSoft
    handlers. *)
Lemma classify_total_on_typed_witness :
  (exists c, determine_log_type (JObj [(lit "eventType", JStr (lit "Login"));
                                       (lit "statusCode", JInt 200)]) = Ret c) /\
  determine_log_type (JObj [(lit "sourceSystem", JNull)]) = Raise AttributeError /\
  determine_log_type (JObj [(lit "eventType", JInt 42)]) = Raise AttributeError /\
  determine_log_type (JObj [(lit "sourceSystem", JStr (lit "mulesoft"));
                            (lit "statusCode", JStr (lit "500"))]) = Raise TypeError /\
  host_status (fst (universalLogHandler demo_float demo_b64decode demo_b64encode demo_hmac
                      demo_clock demo_transport demo_ws_id demo_ws_key
                      (Some (JObj [(lit "sourceSystem", JNull)])) demo_world)) = 500 /\
  host_status (fst (mulesoftLogHandler demo_float demo_b64decode demo_b64encode demo_hmac
                      demo_clock demo_transport demo_ws_id demo_ws_key
                      (Some (JObj [(lit "sourceSystem", JNull)])) demo_world)) = 500.
Proof.
  destruct (classify_total_on_typed demo_float demo_b64decode demo_b64encode demo_hmac
              demo_clock demo_transport demo_ws_id demo_ws_key
              [(lit "sourceSystem", JNull)]) as [_ [Hs [_ [_ Hh]]]].
  destruct (Hh demo_world ltac:(discriminate)
              (ex_intro _ AttributeError (Hs JNull eq_refl eq_refl))) as [Hu Hm].
  split; [apply (proj1 (classify_total_on_typed demo_float demo_b64decode demo_b64encode
                          demo_hmac demo_clock demo_transport demo_ws_id demo_ws_key _));
          reflexivity|].
  split; [exact (Hs JNull eq_refl eq_refl)|].
  split; [apply (proj1 (proj2 (proj2 (classify_total_on_typed demo_float demo_b64decode
            demo_b64encode demo_hmac demo_clock demo_transport demo_ws_id demo_ws_key _)))
            (JInt 42)); reflexivity|].
  split; [apply (proj1 (proj2 (proj2 (proj2 (classify_total_on_typed demo_float demo_b64decode
            demo_b64encode demo_hmac demo_clock demo_transport demo_ws_id demo_ws_key _))))
            (JStr (lit "500"))); reflexivity|].
  split; [exact Hu | exact (Hm eq_refl)].
Defined.

(** ** Counterexamples *)

(** C2: a non-string [sourceSystem] makes [determine_log_type] raise
    [AttributeError], where the decision order gives MuleSoftPerformance
    (from [eventType] "MuleSoft_API" and a latency). *)
Lemma classify_malformed_source_raises :
  determine_log_type (JObj [(lit "sourceSystem", JInt 5);
                            (lit "eventType", JStr (lit "MuleSoft_API"));
                            (lit "latency", JInt 1)]) = Raise AttributeError /\
  classify_spec [(lit "sourceSystem", JInt 5);
                 (lit "eventType", JStr (lit "MuleSoft_API"));
                 (lit "latency", JInt 1)] = MuleSoftPerformance.
Proof. split; vm_compute; reflexivity. Qed.

(** C5: [determine_log_type] raises on [{"sourceSystem": null}],
    on [{"eventType": 42}] and on
    [{"sourceSystem": "mulesoft", "statusCode": "500"}]. *)
Lemma classify_raises_on_malformed :
  determine_log_type (JObj [(lit "sourceSystem", JNull)]) = Raise AttributeError /\
  determine_log_type (JObj [(lit "eventType", JInt 42)]) = Raise AttributeError /\
  determine_log_type (JObj [(lit "sourceSystem", JStr (lit "mulesoft"));
                            (lit "statusCode", JStr (lit "500"))]) = Raise TypeError.
Proof. repeat split; vm_compute; reflexivity. Qed.

(** C6: answered 200 downstream, the universal handler's confirmation is
    "Event logged successfully to GeneralEvent: " followed by the response
    text (here empty); it does not contain the status "200". *)
Lemma universal_success_omits_status :
  fst (universalLogHandler demo_float demo_b64decode demo_b64encode demo_hmac demo_clock
         demo_transport demo_ws_id demo_ws_key
         (Some (JObj [(lit "eventType", JStr (lit "x"))])) demo_world)
  = Ret (mkresp (lit "Event logged successfully to GeneralEvent: ") 200) /\
  str_contains (lit "Event logged successfully to GeneralEvent: ") (int_repr 200) = false.
Proof. split; vm_compute; reflexivity. Qed.

(** C8: the universal handler forwards [{"eventType": "x"}] in one POST
    whose body has no [sourceSystem] key. *)
Lemma universal_never_sets_source :
  map (fun c => str_contains (pc_data c) (lit "sourceSystem"))
    (w_calls (snd (universalLogHandler demo_float demo_b64decode demo_b64encode demo_hmac
                     demo_clock demo_transport demo_ws_id demo_ws_key
                     (Some (JObj [(lit "eventType", JStr (lit "x"))])) demo_world)))
  = [false].
Proof. vm_compute. reflexivity. Qed.

(** ** Instances of the further properties *)

(** X2, on [{"eventType": "x"}] answered 200. *)
Lemma handlers_200_only_on_downstream_200_witness :
  host_status (fst (universalLogHandler demo_float demo_b64decode demo_b64encode demo_hmac
                      demo_clock demo_transport demo_ws_id demo_ws_key
                      (Some (JObj [(lit "eventType", JStr (lit "x"))])) demo_world)) = 200 /\
  exists c t,
    w_calls (snd (universalLogHandler demo_float demo_b64decode demo_b64encode demo_hmac
                    demo_clock demo_transport demo_ws_id demo_ws_key
                    (Some (JObj [(lit "eventType", JStr (lit "x"))])) demo_world))
    = w_calls demo_world ++ [c] /\
    demo_transport (length (w_calls demo_world)) c = Response 200 t.
Proof.
  assert (H : host_status (fst (universalLogHandler demo_float demo_b64decode demo_b64encode
                demo_hmac demo_clock demo_transport demo_ws_id demo_ws_key
                (Some (JObj [(lit "eventType", JStr (lit "x"))])) demo_world)) = 200)
    by (vm_compute; reflexivity).
  split; [exact H|].
  exact (proj1 (handlers_200_only_on_downstream_200 demo_float demo_b64decode demo_b64encode
                  demo_hmac demo_clock demo_transport demo_ws_id demo_ws_key
                  (Some (JObj [(lit "eventType", JStr (lit "x"))])) demo_world) H).
Defined.

(** X3, with a key that does not decode. *)
Lemma undecodable_key_fails_witness :
  post_to_law demo_float demo_bad_b64decode demo_b64encode demo_hmac demo_clock demo_transport
    demo_ws_id demo_ws_key JNull (lit "GeneralEvent") demo_world
  = (Raise BinasciiError, mkworld 1 []).
Proof.
  destruct (undecodable_key_fails demo_float demo_bad_b64decode demo_b64encode demo_hmac
              demo_clock demo_transport demo_ws_id demo_ws_key (lit "ws") (lit "a2V5")
              eq_refl eq_refl ltac:(discriminate) ltac:(discriminate) eq_refl) as [H _].
  apply H.
Defined.

(** X4, on [{"eventType": "x"}]. *)
Lemma salesforce_clock_read_twice_witness :
  exists c,
    w_calls (snd (salesforceLogHandler demo_float demo_b64decode demo_b64encode demo_hmac
                    demo_clock demo_transport demo_ws_id demo_ws_key
                    (Some (JObj [(lit "eventType", JStr (lit "x"))])) demo_world))
    = w_calls demo_world ++ [c] /\
    pc_data c = json_dumps demo_float
      (JObj ([(lit "eventType", JStr (lit "x"))]
             ++ [(lit "timestamp", JStr (isoformat (demo_clock (w_ticks demo_world))))]
             ++ src_fill [(lit "eventType", JStr (lit "x"))] (lit "Salesforce"))) /\
    In (lit "x-ms-date", strftime ts_format (demo_clock (S (w_ticks demo_world)))) (pc_headers c).
Proof.
  exact (salesforce_clock_read_twice demo_float demo_b64decode demo_b64encode demo_hmac
           demo_clock demo_transport demo_ws_id demo_ws_key
           [(lit "eventType", JStr (lit "x"))] demo_world (lit "ws") (lit "a2V5") [1; 2]
           eq_refl eq_refl ltac:(discriminate) ltac:(discriminate) eq_refl
           ltac:(discriminate) eq_refl).
Defined.

(** X6, on the JSON string "timestamp sourceSystem": it is posted as it is
    and answered 200. *)
Lemma salesforce_forwards_payload_as_is_witness :
  fst (salesforceLogHandler demo_float demo_b64decode demo_b64encode demo_hmac demo_clock
         demo_transport demo_ws_id demo_ws_key
         (Some (JStr (lit "timestamp sourceSystem"))) demo_world)
  = Ret (mkresp (lit "Salesforce event logged successfully: ") 200).
Proof.
  rewrite (salesforce_forwards_payload_as_is demo_float demo_b64decode demo_b64encode demo_hmac
             demo_clock demo_transport demo_ws_id demo_ws_key
             (JStr (lit "timestamp sourceSystem")) demo_world eq_refl eq_refl eq_refl).
  vm_compute. reflexivity.
Defined.

(** X8, on two records that differ in a key the classifier ignores. *)
Lemma determine_log_type_local_witness :
  determine_log_type (JObj [(lit "eventType", JStr (lit "Login")); (lit "userId", JStr (lit "u"))])
  = determine_log_type (JObj [(lit "eventType", JStr (lit "Login"))]).
Proof.
  apply determine_log_type_local. intros k Hk. cbn [classify_keys In] in Hk.
  repeat (destruct Hk as [<- | Hk]; [reflexivity|]). destruct Hk.
Defined.

(** X9, on a record with only a latency and an error. *)
Lemma untagged_record_general_witness :
  determine_log_type (JObj [(lit "latency", JInt 5); (lit "error", JStr (lit "x"))])
  = Ret GeneralEvent.
Proof. apply untagged_record_general; reflexivity. Defined.
